(** * gdbgui backend: the session multiplexer of [gdbgui/backend.py]

    A shallow embedding of the websocket handlers [client_connected],
    [run_gdb_command], [client_disconnected], of the reader task
    [read_and_forward_gdb_output], of [dbprint] and of the module-level
    platform check that binds [STARTUP_WITH_SHELL_OFF].

    Python objects that the code shares and mutates (the dict
    [_gdb_state['gdb_controllers']], the module-level argument lists, the
    controllers themselves) live in one explicit store, [state]; a handler is
    a function from stores to stores together with the exception it raised,
    if any.  The collaborators that are not part of the module (pygdbmi's
    [GdbController], the socketio transport) appear through what they return:
    a controller carries the outcomes of its future calls, and every [emit]
    is appended to a trace. *)

From Stdlib Require Import List String Ascii ZArith Bool Lia Arith DecimalString.
Import ListNotations.
Open Scope string_scope.

Set Implicit Arguments.

(** ** Python values the handlers manipulate *)

(** The exceptions that can travel through the module.  [Raised m] is an
    exception coming out of a collaborator, with [str(e) = m]. *)
Inductive exn : Type :=
| NameError (name : string)
| TypeError
| AttributeError
| KeyError (key : string)
| RuntimeError (msg : string)
| Raised (msg : string).

(** [str(e)] for the exceptions above. *)
Definition str_exn (e : exn) : string :=
  match e with
  | NameError n => "name '" ++ n ++ "' is not defined"
  | TypeError => "sequence item 0: expected str instance"
  | AttributeError => "'NoneType' object has no attribute"
  | KeyError k => "'" ++ k ++ "'"
  | RuntimeError m => m
  | Raised m => m
  end.

(** Outcome of a statement: it completes, or it raises. *)
Inductive outcome (A : Type) : Type :=
| Done (a : A)
| Raise (e : exn).
Arguments Done {A} a.
Arguments Raise {A} e.

(** An argument of [dbprint]: a [str], or an object that is not one
    (the only such object the module passes is a caught exception). *)
Inductive pyarg : Type :=
| PStr (s : string)
| PExn (e : exn).

(** The command of a [run_gdb_command] message: a string or a list. *)
Inductive cmd : Type :=
| CmdStr (s : string)
| CmdList (l : list string).

(** A parsed gdb response record; opaque to this module. *)
Definition record : Type := string.

(** What one call of [get_gdb_response(timeout_sec=0,
    raise_error_on_timeout=False)] gives: a (possibly empty) list of
    records, or an exception. *)
Inductive poll_outcome : Type :=
| PollRecords (rs : list record)
| PollRaise (e : exn).

(** A [pygdbmi.GdbController] seen from this module: the pid of its
    process, the outcomes of its future polls in order, whether [write] and
    [exit] raise, and what has been written to it so far. *)
Record GdbController : Type := mkController {
  pid : Z;
  poll_script : list poll_outcome;
  write_fault : option string;
  exit_fault : option string;
  written : list cmd;
  exited : bool
}.

(** Payloads of the three socket events the module emits. *)
Inductive payload : Type :=
| gdb_pid (p : Z)
| gdb_response (response : list record)
| error_running_gdb_command (message : string).

(** An emitted event: the room (client id) it is addressed to, and its
    payload. *)
Definition event : Type := (string * payload)%type.

(** ** The platform check (lines 45-51) *)

Definition is_digit (c : ascii) : bool :=
  let n := nat_of_ascii c in (48 <=? n)%nat && (n <=? 57)%nat.

Definition lower_ascii (c : ascii) : ascii :=
  let n := nat_of_ascii c in
  if (65 <=? n)%nat && (n <=? 90)%nat then ascii_of_nat (n + 32) else c.

(** [str.lower()] on the ASCII strings [platform.platform()] returns. *)
Fixpoint lower (s : string) : string :=
  match s with
  | EmptyString => EmptyString
  | String c s' => String (lower_ascii c) (lower s')
  end.

(** The longest prefix of digits, and the rest. *)
Fixpoint span_digits (s : string) : string * string :=
  match s with
  | String c s' =>
      if is_digit c
      then let (d, r) := span_digits s' in (String c d, r)
      else (EmptyString, s)
  | EmptyString => (EmptyString, EmptyString)
  end.

Fixpoint strip_prefix (p s : string) : option string :=
  match p, s with
  | EmptyString, _ => Some s
  | String a p', String b s' =>
      if Ascii.eqb a b then strip_prefix p' s' else None
  | String _ _, EmptyString => None
  end.

(** [re.match('darwin-(\d+)\..*', s)]: the text of group 1 when the
    pattern matches at the start of [s].  The greedy [\d+] must be followed
    by a dot; giving digits back cannot help, since the character after a
    shorter run is a digit.  The trailing [.*] matches the empty string. *)
Definition re_match_darwin (s : string) : option string :=
  match strip_prefix "darwin-" s with
  | None => None
  | Some rest =>
      match span_digits rest with
      | (EmptyString, _) => None
      | (digits, String "." _) => Some digits
      | (_, _) => None
      end
  end.

(** [int(s)] on a string of decimal digits. *)
Fixpoint int_acc (acc : Z) (s : string) : Z :=
  match s with
  | EmptyString => acc
  | String c s' => int_acc (10 * acc + (Z.of_nat (nat_of_ascii c) - 48)) s'
  end.

Definition int (s : string) : Z := int_acc 0 s.

(** The binding of the module-level name [STARTUP_WITH_SHELL_OFF] after
    import: [None] when the name was never assigned. *)
Definition startup_with_shell_off (platform : string) : option bool :=
  match re_match_darwin (lower platform) with
  | None => Some false
  | Some g => if (int g >=? 16)%Z then Some true else None
  end.

(** ** The store *)

(** What the handlers read and never write: [app.config], [app.debug] and
    the flag bound (or not) by the platform check. *)
Record module_env : Type := mkEnv {
  LLDB : bool;
  gdb_path : string;
  debug : bool;
  STARTUP_WITH_SHELL_OFF : option bool
}.

(** The module as imported on [platform] and configured by [main]. *)
Definition import_module (platform : string) (lldb : bool) (path : string)
    (dbg : bool) : module_env :=
  mkEnv lldb path dbg (startup_with_shell_off platform).

(** The task object [socketio.start_background_task] returns. *)
Inductive thread : Type :=
| Running
| Dead (e : exn).

(** A Python dict: keys in insertion order, no key twice.  The values of
    [gdb_controllers] are controllers; the code also tests them against
    [None], so a value is an [option]. *)
Definition dict : Type := list (string * option GdbController).

Record state : Type := mkState {
  DEFAULT_GDB_ARGS : list string;
  DEFAULT_LLDB_ARGS : list string;
  gdb_controllers : dict;
  gdb_reader_thread : option thread;
  emitted : list event;
  stdout : list string;
  spawned : list (string * list string);
  started : nat
}.

(** The store right after import (lines 41-42 and 61-67). *)
Definition initial_state : state :=
  mkState ["-nx"; "--interpreter=mi2"] ["--interpreter=mi2"] [] None [] [] [] 0.

Definition set_gdb_args (a : list string) (s : state) : state :=
  mkState a s.(DEFAULT_LLDB_ARGS) s.(gdb_controllers) s.(gdb_reader_thread)
          s.(emitted) s.(stdout) s.(spawned) s.(started).
Definition set_lldb_args (a : list string) (s : state) : state :=
  mkState s.(DEFAULT_GDB_ARGS) a s.(gdb_controllers) s.(gdb_reader_thread)
          s.(emitted) s.(stdout) s.(spawned) s.(started).
Definition set_controllers (d : dict) (s : state) : state :=
  mkState s.(DEFAULT_GDB_ARGS) s.(DEFAULT_LLDB_ARGS) d s.(gdb_reader_thread)
          s.(emitted) s.(stdout) s.(spawned) s.(started).
Definition set_reader_thread (t : option thread) (s : state) : state :=
  mkState s.(DEFAULT_GDB_ARGS) s.(DEFAULT_LLDB_ARGS) s.(gdb_controllers) t
          s.(emitted) s.(stdout) s.(spawned) s.(started).
Definition add_emitted (e : event) (s : state) : state :=
  mkState s.(DEFAULT_GDB_ARGS) s.(DEFAULT_LLDB_ARGS) s.(gdb_controllers)
          s.(gdb_reader_thread) (s.(emitted) ++ [e]) s.(stdout) s.(spawned)
          s.(started).
Definition add_stdout (l : string) (s : state) : state :=
  mkState s.(DEFAULT_GDB_ARGS) s.(DEFAULT_LLDB_ARGS) s.(gdb_controllers)
          s.(gdb_reader_thread) s.(emitted) (s.(stdout) ++ [l]) s.(spawned)
          s.(started).
Definition add_spawned (c : string * list string) (s : state) : state :=
  mkState s.(DEFAULT_GDB_ARGS) s.(DEFAULT_LLDB_ARGS) s.(gdb_controllers)
          s.(gdb_reader_thread) s.(emitted) s.(stdout) (s.(spawned) ++ [c])
          s.(started).
Definition incr_started (s : state) : state :=
  mkState s.(DEFAULT_GDB_ARGS) s.(DEFAULT_LLDB_ARGS) s.(gdb_controllers)
          s.(gdb_reader_thread) s.(emitted) s.(stdout) s.(spawned)
          (S s.(started)).

(** *** Dict operations *)

Fixpoint dict_get (k : string) (d : dict) : option (option GdbController) :=
  match d with
  | [] => None
  | (k', v) :: d' => if String.eqb k k' then Some v else dict_get k d'
  end.

(** [k in d.keys()] *)
Definition dict_mem (k : string) (d : dict) : bool :=
  match dict_get k d with Some _ => true | None => false end.

(** [d[k] = v]: in place when the key is there, at the end otherwise. *)
Fixpoint dict_set (k : string) (v : option GdbController) (d : dict) : dict :=
  match d with
  | [] => [(k, v)]
  | (k', v') :: d' =>
      if String.eqb k k' then (k', v) :: d' else (k', v') :: dict_set k v d'
  end.

(** [d.pop(k)] for a key that is there. *)
Fixpoint dict_pop (k : string) (d : dict) : dict :=
  match d with
  | [] => []
  | (k', v') :: d' =>
      if String.eqb k k' then d' else (k', v') :: dict_pop k d'
  end.

(** Replace the value of the entry at position [i] (the object stored
    there was mutated in place). *)
Fixpoint dict_update_at (i : nat) (v : option GdbController) (d : dict) : dict :=
  match d, i with
  | [], _ => []
  | (k, _) :: d', O => (k, v) :: d'
  | kv :: d', S i' => kv :: dict_update_at i' v d'
  end.

(** *** Statements: store passing with exceptions *)

Definition M (A : Type) : Type := state -> state * outcome A.

Definition ret {A} (a : A) : M A := fun s => (s, Done a).
Definition raise {A} (e : exn) : M A := fun s => (s, Raise e).
Definition bind {A B} (m : M A) (f : A -> M B) : M B :=
  fun s => match m s with
           | (s', Done a) => f a s'
           | (s', Raise e) => (s', Raise e)
           end.
Definition modify (f : state -> state) : M unit := fun s => (f s, Done tt).
Definition get : M state := fun s => (s, Done s).

Declare Scope py_scope.
Delimit Scope py_scope with py.
Notation "x <- m ;; k" := (bind m (fun x => k))
  (at level 61, m at next level, right associativity) : py_scope.
Notation "m ;; k" := (bind m (fun _ => k))
  (at level 61, right associativity) : py_scope.
Open Scope py_scope.

(** ** [dbprint] (lines 108-113) *)

Definition ESC : string := String (ascii_of_nat 27) EmptyString.
Definition CYELLOW2 : string := ESC ++ "[93m".
Definition NORMAL : string := ESC ++ "[0m".
Definition dquote : string := String (ascii_of_nat 34) EmptyString.

(** [' '.join(args)]: a [TypeError] as soon as an item is not a [str]. *)
Fixpoint join_args (args : list pyarg) : outcome string :=
  match args with
  | [] => Done ""
  | PExn _ :: _ => Raise TypeError
  | PStr s :: [] => Done s
  | PStr s :: rest =>
      match join_args rest with
      | Done r => Done (s ++ " " ++ r)
      | Raise e => Raise e
      end
  end.

(** [app] is a Flask object, hence truthy: the test is [app.debug]'s. *)
Definition dbprint (env : module_env) (args : list pyarg) : M unit :=
  if env.(debug) then
    match join_args args with
    | Done text => modify (add_stdout (CYELLOW2 ++ "DEBUG: " ++ text ++ NORMAL))
    | Raise e => raise e
    end
  else ret tt.

Definition emit (room : string) (p : payload) : M unit :=
  modify (add_emitted (room, p)).

(** ** The connect handler (lines 123-149) *)

(** ['%s' % n] for an integer. *)
Definition str_Z (z : Z) : string := NilZero.string_of_int (Z.to_int z).

(** The local name [gdb_args] is bound to one of the two module-level
    lists: it aliases the list, it is not a copy. *)
Inductive args_ref : Type :=
| RefGDB
| RefLLDB.

Definition deref (r : args_ref) (s : state) : list string :=
  match r with
  | RefGDB => s.(DEFAULT_GDB_ARGS)
  | RefLLDB => s.(DEFAULT_LLDB_ARGS)
  end.

(** [r.append(x)]: the aliased module-level list grows in place. *)
Definition append_ref (r : args_ref) (x : string) : M unit :=
  modify (fun s =>
    match r with
    | RefGDB => set_gdb_args (s.(DEFAULT_GDB_ARGS) ++ [x]) s
    | RefLLDB => set_lldb_args (s.(DEFAULT_LLDB_ARGS) ++ [x]) s
    end).

Definition shell_off_arg : string :=
  "--init-eval-command=set startup-with-shell off".

(** What the world answers to [GdbController(gdb_path=..., gdb_args=...)]:
    a controller, or the exception of a spawn that failed. *)
Definition spawner : Type := string -> list string -> outcome GdbController.

(** Lines 125-141: give the client its own gdb instance. *)
Definition connect_session (env : module_env) (sid : string) (spawn : spawner)
    : M unit :=
  dbprint env [PStr ("Client websocket connected in async mode " ++ dquote
                     ++ "eventlet" ++ dquote ++ ", id " ++ sid)] ;;
  s <- get ;;
  if negb (dict_mem sid s.(gdb_controllers)) then
    dbprint env [PStr "new sid"; PStr sid] ;;
    let gdb_args := if env.(LLDB) then RefLLDB else RefGDB in
    match env.(STARTUP_WITH_SHELL_OFF) with
    | None => raise (NameError "STARTUP_WITH_SHELL_OFF")
    | Some true => append_ref gdb_args shell_off_arg
    | Some false => ret tt
    end ;;
    s1 <- get ;;
    let args := deref gdb_args s1 in
    modify (add_spawned (env.(gdb_path), args)) ;;
    match spawn env.(gdb_path) args with
    | Raise e => raise e
    | Done g =>
        modify (fun s2 =>
          set_controllers (dict_set sid (Some g) s2.(gdb_controllers)) s2)
    end
  else ret tt.

(** Line 144: tell the browser tab which gdb pid is dedicated to it.
    Inside a handler, [emit] addresses the requesting client. *)
Definition connect_emit_pid (sid : string) : M unit :=
  s <- get ;;
  match dict_get sid s.(gdb_controllers) with
  | None => raise (KeyError sid)
  | Some None => raise AttributeError
  | Some (Some g) => emit sid (gdb_pid g.(pid))
  end.

(** Line 147 and the call on line 148: when no reader thread is recorded,
    [socketio.start_background_task] is called and returns a task. *)
Definition connect_guard_call : M (option thread) :=
  s <- get ;;
  match s.(gdb_reader_thread) with
  | None => modify incr_started ;; ret (Some Running)
  | Some _ => ret None
  end.

(** The assignment of line 148 and line 149, when the call was made. *)
Definition connect_guard_store (env : module_env) (t : option thread) : M unit :=
  match t with
  | None => ret tt
  | Some th =>
      modify (set_reader_thread (Some th)) ;;
      dbprint env [PStr "Created background thread to read gdb responses"]
  end.

Definition client_connected (env : module_env) (sid : string) (spawn : spawner)
    : M unit :=
  connect_session env sid spawn ;;
  connect_emit_pid sid ;;
  t <- connect_guard_call ;;
  connect_guard_store env t.

(** ** The command handler (lines 152-169) *)

(** [g.write(cmd, read_response=False)] *)
Definition controller_write (c : cmd) (g : GdbController)
    : outcome GdbController :=
  match g.(write_fault) with
  | Some m => Raise (Raised m)
  | None => Done (mkController g.(pid) g.(poll_script) g.(write_fault)
                               g.(exit_fault) (g.(written) ++ [c]) g.(exited))
  end.

(** The message is the client's JSON object: [message['cmd']] is a
    [KeyError] when the key is missing. *)
Definition run_gdb_command (sid : string) (message : option cmd) : M unit :=
  s <- get ;;
  match dict_get sid s.(gdb_controllers) with
  | Some (Some g) =>
      let attempt :=
        match message with
        | None => Raise (KeyError "cmd")
        | Some c => controller_write c g
        end in
      match attempt with
      | Done g' =>
          modify (fun s1 =>
            set_controllers (dict_set sid (Some g') s1.(gdb_controllers)) s1)
      | Raise e =>
          emit sid (error_running_gdb_command (str_exn e))
      end
  | _ => emit sid (error_running_gdb_command "gdb is not running")
  end.

(** ** The disconnect handler (lines 172-179) *)

(** [g.exit()] *)
Definition controller_exit (g : GdbController) : outcome GdbController :=
  match g.(exit_fault) with
  | Some m => Raise (Raised m)
  | None => Done (mkController g.(pid) g.(poll_script) g.(write_fault)
                               g.(exit_fault) g.(written) true)
  end.

Definition client_disconnected (env : module_env) (sid : string) : M unit :=
  dbprint env [PStr ("Client websocket disconnected, id " ++ sid)] ;;
  s <- get ;;
  if dict_mem sid s.(gdb_controllers) then
    match dict_get sid s.(gdb_controllers) with
    | Some (Some g) =>
        dbprint env [PStr ("Exiting gdb subprocess pid " ++ str_Z g.(pid))] ;;
        match controller_exit g with
        | Raise e => raise e
        | Done _ =>
            modify (fun s1 =>
              set_controllers (dict_pop sid s1.(gdb_controllers)) s1)
        end
    | _ => raise AttributeError
    end
  else ret tt.

(** ** The reader task (lines 187-209) *)

(** The events the transport hands to the three handlers. *)
Inductive hevent : Type :=
| Connect (sid : string) (spawn : spawner)
| RunCommand (sid : string) (message : option cmd)
| Disconnect (sid : string).

Definition handle (env : module_env) (h : hevent) : M unit :=
  match h with
  | Connect sid spawn => client_connected env sid spawn
  | RunCommand sid message => run_gdb_command sid message
  | Disconnect sid => client_disconnected env sid
  end.

(** A handler that runs while the reader is suspended.  An exception of
    the handler goes to the transport, not to the reader; what the handler
    wrote to the store before raising stays written. *)
Definition deliver (env : module_env) (h : option hevent) (s : state) : state :=
  match h with
  | None => s
  | Some ev => fst (handle env ev s)
  end.

(** [g.get_gdb_response(timeout_sec=0, raise_error_on_timeout=False)]:
    the next outcome of the process; nothing queued is an empty list. *)
Definition controller_poll (g : GdbController) : GdbController * poll_outcome :=
  match g.(poll_script) with
  | [] => (g, PollRecords [])
  | o :: rest =>
      (mkController g.(pid) rest g.(write_fault) g.(exit_fault) g.(written)
                    g.(exited), o)
  end.

(** [try: m except Exception as e: h e] *)
Definition try_except {A} (m : M A) (h : exn -> M A) : M A :=
  fun s => match m s with
           | (s', Done a) => (s', Done a)
           | (s', Raise e) => h e s'
           end.

(** How the body of a [for] leaves: to the next item, or by [break]. *)
Inductive flow : Type :=
| Next
| Break.

(** Lines 194-209, for the item at position [pos] of the dict.  The poll
    mutates the controller object, which the dict entry refers to. *)
Definition reader_body (env : module_env) (pos : nat) (client_id : string)
    (gdb : option GdbController) : M flow :=
  try_except
    (match gdb with
     | Some g =>
         let (g', o) := controller_poll g in
         modify (fun s =>
           set_controllers (dict_update_at pos (Some g') s.(gdb_controllers)) s) ;;
         match o with
         | PollRaise e => raise e
         | PollRecords [] => ret Next
         | PollRecords response =>
             dbprint env [PStr ("emiting message to websocket client id "
                                ++ client_id)] ;;
             emit client_id (gdb_response response) ;;
             ret Next
         end
     | None =>
         dbprint env [PStr ("thread to read gdb vars is exiting since gdb "
                            ++ "controller object was not found")] ;;
         ret Break
     end)
    (fun e => dbprint env [PExn e] ;; ret Next).

Definition changed_size : exn :=
  RuntimeError "dictionary changed size during iteration".

(** The [for] of line 193 over [gdb_controllers.items()].  In Python 3
    [items()] is a view of the dict, not a copy of its items: the loop
    walks the dict the handlers write to.  The iterator remembers the size of the dict at its creation ([size0])
    and its position.  Each request for an item first compares the current
    size with [size0] and raises [RuntimeError] when they differ; the [for]
    statement is outside the [try], so that exception leaves the loop.
    [sched] gives, for each pass through the body, the handler (if any) that
    runs before the iterator is asked for the next item. *)
Fixpoint for_items (env : module_env) (fuel pos size0 : nat)
    (sched : list (option hevent)) (s : state) : state * outcome unit :=
  match fuel with
  | O => (s, Done tt)
  | S fuel' =>
      if negb (List.length s.(gdb_controllers) =? size0)%nat then
        (s, Raise changed_size)
      else
        match nth_error s.(gdb_controllers) pos with
        | None => (s, Done tt)
        | Some (client_id, gdb) =>
            match reader_body env pos client_id gdb s with
            | (s1, Raise e) => (s1, Raise e)
            | (s1, Done Break) => (s1, Done tt)
            | (s1, Done Next) =>
                for_items env fuel' (S pos) size0 (tl sched)
                          (deliver env (hd None sched) s1)
            end
        end
  end.

(** One pass of the [while True] body after the sleep.  The dict has
    [size0] items, so [size0 + 1] requests to the iterator are enough. *)
Definition tick (env : module_env) (sched : list (option hevent)) : M unit :=
  fun s =>
    let size0 := List.length s.(gdb_controllers) in
    for_items env (S size0) 0 size0 sched s.

(** ** The server: handlers and reader ticks in sequence *)

Inductive sys_event : Type :=
| Handler (h : hevent)
| Tick (sched : list (option hevent)).

(** A tick happens only in a reader task that was started and has not
    died; an exception out of [read_and_forward_gdb_output] ends the task. *)
Definition sys_step (env : module_env) (ev : sys_event) (s : state) : state :=
  match ev with
  | Handler h => deliver env (Some h) s
  | Tick sched =>
      match s.(gdb_reader_thread) with
      | Some Running =>
          match tick env sched s with
          | (s', Done _) => s'
          | (s', Raise e) => set_reader_thread (Some (Dead e)) s'
          end
      | _ => s
      end
  end.

Definition run (env : module_env) (evs : list sys_event) (s : state) : state :=
  fold_left (fun st ev => sys_step env ev st) evs s.

(** ** Connect handlers that interleave

    A connect handler calls into the transport twice after the session is
    in place: [emit] on line 144 and [socketio.start_background_task] on
    line 148.  A handler can be suspended at those calls, and another
    handler can run meanwhile.  The pieces between such points are the
    four definitions [client_connected] is made of; a task is a handler
    together with the piece it will run next. *)

Inductive conn_pc : Type :=
| AtSession
| AtEmit
| AtGuard
| AtStore (t : option thread)
| Finished (r : outcome unit).

Record conn_task : Type := mkTask {
  task_sid : string;
  task_spawn : spawner;
  task_pc : conn_pc
}.

Definition advance {A} (r : state * outcome A) (k : A -> conn_pc)
    : state * conn_pc :=
  match r with
  | (s', Done a) => (s', k a)
  | (s', Raise e) => (s', Finished (Raise e))
  end.

Definition step_pc (env : module_env) (sid : string) (spawn : spawner)
    (pc : conn_pc) (s : state) : state * conn_pc :=
  match pc with
  | AtSession => advance (connect_session env sid spawn s) (fun _ => AtEmit)
  | AtEmit => advance (connect_emit_pid sid s) (fun _ => AtGuard)
  | AtGuard => advance (connect_guard_call s) AtStore
  | AtStore t =>
      advance (connect_guard_store env t s) (fun _ => Finished (Done tt))
  | Finished r => (s, Finished r)
  end.

Definition step_task (env : module_env) (t : conn_task) (s : state)
    : state * conn_task :=
  let (s', pc') := step_pc env t.(task_sid) t.(task_spawn) t.(task_pc) s in
  (s', mkTask t.(task_sid) t.(task_spawn) pc').

Fixpoint replace_nth {A} (i : nat) (x : A) (l : list A) : list A :=
  match l, i with
  | [], _ => []
  | _ :: l', O => x :: l'
  | y :: l', S i' => y :: replace_nth i' x l'
  end.

(** [schedule] names, step after step, the task that runs its next piece. *)
Fixpoint run_tasks (env : module_env) (schedule : list nat)
    (pool : list conn_task) (s : state) : state * list conn_task :=
  match schedule with
  | [] => (s, pool)
  | i :: rest =>
      match nth_error pool i with
      | None => run_tasks env rest pool s
      | Some t =>
          let (s', t') := step_task env t s in
          run_tasks env rest (replace_nth i t' pool) s'
      end
  end.

(** ** [colorize] (lines 116-120) *)

(** [IS_A_TTY] is read once, at import. *)
Definition colorize (is_a_tty : bool) (text : string) : string :=
  if is_a_tty then ESC ++ "[6;30;42m" ++ text ++ ESC ++ "[0m" else text.

(** ** [get_extra_files] (lines 220-233) *)

(** [x in l] for a list of strings. *)
Fixpoint str_mem (x : string) (l : list string) : bool :=
  match l with
  | [] => false
  | y :: l' => if String.eqb x y then true else str_mem x l'
  end.

Section ExtraFiles.

(** The file system, as the function sees it: [os.path.join] and
    [os.path.isfile]. *)
Variable path_join : string -> string -> string.
Variable isfile : string -> bool.

(** The inner [for] of lines 229-232, over the names of one directory. *)
Fixpoint add_files (dirname : string) (files : list string)
    (extra_files : list string) : list string :=
  match files with
  | [] => extra_files
  | filename :: rest =>
      let filename := path_join dirname filename in
      if isfile filename && negb (str_mem filename extra_files)
      then add_files dirname rest (extra_files ++ [filename])
      else add_files dirname rest extra_files
  end.

(** The [for] of line 228 over what [os.walk] yields: triples of a
    directory, its subdirectories and its files. *)
Fixpoint walk_files (walk : list (string * list string * list string))
    (extra_files : list string) : list string :=
  match walk with
  | [] => extra_files
  | (dirname, _, files) :: rest =>
      walk_files rest (add_files dirname files extra_files)
  end.

(** [extra_dirs] holds the one directory of the module; [walk] is
    [os.walk] of it. *)
Definition get_extra_files (walk : list (string * list string * list string))
    : list string :=
  walk_files walk [].

End ExtraFiles.

(** ** The file routes (lines 283-323) *)

(** A JSON value of a response body. *)
Inductive json : Type :=
| JNull
| JStr (s : string)
| JNum (n : Z)
| JList (l : list string).

(** What a route returns: the object given to [jsonify], and the status
    (200 when the route returns the object alone). *)
Definition response : Type := (list (string * json) * Z)%type.

Definition ok_response (obj : list (string * json)) : response := (obj, 200%Z).

(** [server_error] and [client_error] (lines 212-217). *)
Definition server_error (obj : list (string * json)) : response := (obj, 500%Z).
Definition client_error (obj : list (string * json)) : response := (obj, 400%Z).

(** The query parameter [path]: [request.args.get('path')] is [None]
    when the parameter is missing. *)
Definition json_of_path (path : option string) : json :=
  match path with
  | None => JNull
  | Some p => JStr p
  end.

(** ['%s' % path] *)
Definition str_of_path (path : option string) : string :=
  match path with
  | None => "None"
  | Some p => p
  end.

(** [path and os.path.isfile(path)]: the file the request names, when
    the parameter is there, is not empty and names a file. *)
Definition requested_file (isfile : string -> bool) (path : option string)
    : option string :=
  match path with
  | None => None
  | Some EmptyString => None
  | Some p => if isfile p then Some p else None
  end.

(** Lines 283-296.  [getmtime] is [os.path.getmtime]; the time is a
    number this module only passes on. *)
Definition get_last_modified_unix_sec (isfile : string -> bool)
    (getmtime : string -> outcome Z) (path : option string) : response :=
  match requested_file isfile path with
  | Some p =>
      match getmtime p with
      | Done last_modified =>
          ok_response [("path", JStr p);
                       ("last_modified_unix_sec", JNum last_modified)]
      | Raise e =>
          client_error [("message", JStr (str_exn e)); ("path", JStr p)]
      end
  | None =>
      client_error [("message", JStr ("File not found: " ++ str_of_path path));
                    ("path", json_of_path path)]
  end.

(** Lines 299-323.  [read] is [open(path, 'r').read()]; [highlight] stands
    for the lexer guessed from the file name and the list formatter applied
    to the code. *)
Definition read_file (isfile : string -> bool) (getmtime : string -> outcome Z)
    (read : string -> outcome string)
    (highlight : string -> string -> outcome (list string))
    (path : option string) : response :=
  match requested_file isfile path with
  | Some p =>
      let attempt :=
        match getmtime p with
        | Raise e => Raise e
        | Done last_modified =>
            match read p with
            | Raise e => Raise e
            | Done code =>
                match highlight p code with
                | Raise e => Raise e
                | Done highlighted_source_code_list =>
                    Done (ok_response
                            [("source_code", JList highlighted_source_code_list);
                             ("path", JStr p);
                             ("last_modified_unix_sec", JNum last_modified)])
                end
            end
        end in
      match attempt with
      | Done r => r
      | Raise e => client_error [("message", JStr (str_exn e))]
      end
  | None =>
      client_error [("message", JStr ("File not found: " ++ str_of_path path))]
  end.

(** ** Start-up: [verify_gdb_exists], [setup_backend], [main] *)

(** [needle in hay] for strings. *)
Fixpoint str_in (needle hay : string) : bool :=
  match strip_prefix needle hay with
  | Some _ => true
  | None =>
      match hay with
      | EmptyString => false
      | String _ hay' => str_in needle hay'
      end
  end.

(** [' '.join(l)] for a list of strings. *)
Fixpoint join_space (l : list string) : string :=
  match l with
  | [] => ""
  | [x] => x
  | x :: rest => x ++ " " ++ join_space rest
  end.

(** What the start-up code does to the outside, in order.
    [ParserOutput] is what [argparse] itself prints (the help text, or the
    usage and the error) before it exits. *)
Inductive action : Type :=
| Print (text : string)
| PrintRed (text : string)
| ParserOutput (text : string)
| OpenBrowser (url : string)
| SocketioRun (host : string) (port : Z) (dbg : bool)
              (extra_files : list string).

(** How a call ends: it returns, [sys.exit] was called, or an exception
    was left uncaught. *)
Inductive ending : Type :=
| Returned
| Exit (code : Z)
| Uncaught (e : exn).

(** The machine the server starts on.  [host_ip] is
    [socket.gethostbyname(socket.gethostname())], which raises when the host
    name does not resolve; [socketio_run] is how [socketio.run] ends once it
    was called: it returns when the server is stopped, or raises (the port is
    taken, for one). *)
Record host_os : Type := mkOS {
  find_executable : string -> bool;
  IS_A_TTY : bool;
  host_ip : outcome string;
  os_path_join : string -> string -> string;
  os_isfile : string -> bool;
  os_walk : list (string * list string * list string);
  version_string : string;
  socketio_run : outcome unit
}.

(** The parsed command line.  [args_port] is [int(args.port)]. *)
Record cli_args : Type := mkArgs {
  args_cmd : list string;
  args_port : outcome Z;
  args_host : string;
  args_remote : bool;
  args_gdb : string;
  args_lldb : bool;
  args_version : bool;
  args_hide_gdbgui_upgrades : bool;
  args_debug : bool;
  args_no_browser : bool
}.

(** [parser.parse_args()] (line 344): the namespace, or the exit of
    [argparse] itself, with the status it chose (0 after [-h], 2 after a
    usage error) and what it printed. *)
Inductive parsed : Type :=
| Parsed (args : cli_args)
| ParserExit (code : Z) (output : string).

(** The entries of [app.config] the start-up code writes; [config_LLDB]
    is [None] until [setup_backend] sets it. *)
Record app_config : Type := mkConfig {
  config_initial_binary_and_args : option string;
  config_gdb_path : string;
  config_show_gdbgui_upgrades : bool;
  config_LLDB : option bool
}.

(** Lines 55-57. *)
Definition initial_config : app_config := mkConfig None "gdb" true None.

Definition DEFAULT_HOST : string := "127.0.0.1".
Definition LLDB_SERVER_PATH : string := "lldb-server".
Definition newline : string := String (ascii_of_nat 10) EmptyString.

(** Lines 99-105: [None] when the check passes, the message printed in
    red before [sys.exit(1)] otherwise. *)
Definition verify_gdb_exists (os : host_os) (cfg : app_config) : option string :=
  let path := cfg.(config_gdb_path) in
  if negb (os.(find_executable) path) then
    Some ("gdb executable " ++ dquote ++ path ++ dquote
          ++ " was not found. Is gdb installed? try " ++ dquote
          ++ "sudo apt-get install gdb" ++ dquote)
  else if str_in "lldb" (lower path) && negb (str_in "lldb-mi" (lower path)) then
    Some ("gdbgui cannot use the standard lldb executable. You must use an "
          ++ "executable with " ++ dquote ++ "lldb-mi" ++ dquote
          ++ " in its name.")
  else None.

(** The address of lines 91-94: [DEFAULT_HOST] itself, or the address
    the host name resolves to, which is looked up only when [host] is
    another one. *)
Definition host_shown (os : host_os) (host : string) : outcome string :=
  if String.eqb host DEFAULT_HOST then Done DEFAULT_HOST else os.(host_ip).

(** Lines 70-96.  The template settings and [socketio.init_app] (lines
    80-83) are set-up of the framework, taken to return; [serve] is never
    read.  The lookup of the host name comes after the browser was opened
    and before [socketio.run]. *)
Definition setup_backend (os : host_os) (host : string) (port : Z)
    (dbg open_browser testing lldb : bool) (cfg : app_config)
    : list action * ending * app_config :=
  if lldb && negb (os.(find_executable) LLDB_SERVER_PATH) then
    ([PrintRed ("lldb-mi is being used, but the executable " ++ dquote
                ++ LLDB_SERVER_PATH ++ dquote
                ++ " was not found. It is required by lldb-mi.")],
     Exit 1, cfg)
  else
    let url := host ++ ":" ++ str_Z port in
    let url_with_prefix := "http://" ++ url in
    let cfg' := mkConfig cfg.(config_initial_binary_and_args)
                         cfg.(config_gdb_path)
                         cfg.(config_show_gdbgui_upgrades) (Some lldb) in
    let browser :=
      if open_browser && negb dbg && negb testing then
        [Print (colorize os.(IS_A_TTY)
                  ("Opening gdbgui in browser (" ++ url_with_prefix ++ ")"));
         OpenBrowser url_with_prefix]
      else [] in
    if negb testing then
      match host_shown os host with
      | Raise e => (browser, Uncaught e, cfg')
      | Done shown =>
          ((browser
            ++ [Print (newline ++ newline ++ "** view app at http://"
                       ++ shown ++ ":" ++ str_Z port ++ " **"
                       ++ newline ++ newline);
                SocketioRun host port dbg
                  (get_extra_files os.(os_path_join) os.(os_isfile)
                                   os.(os_walk))])%list,
           match os.(socketio_run) with
           | Done _ => Returned
           | Raise e => Uncaught e
           end,
           cfg')
      end
    else (browser, Returned, cfg').

(** Lines 345-357: [main] once [parse_args] has returned the namespace. *)
Definition main_parsed (os : host_os) (args : cli_args)
    : list action * ending * app_config :=
  if args.(args_version) then
    ([Print os.(version_string)], Returned, initial_config)
  else
    let cfg := mkConfig (Some (join_space args.(args_cmd))) args.(args_gdb)
                        (negb args.(args_hide_gdbgui_upgrades)) None in
    match verify_gdb_exists os cfg with
    | Some message => ([PrintRed message], Exit 1, cfg)
    | None =>
        let host := if args.(args_remote) then "0.0.0.0" else args.(args_host) in
        let no_browser := if args.(args_remote) then true
                          else args.(args_no_browser) in
        match args.(args_port) with
        | Raise e => ([], Uncaught e, cfg)
        | Done port =>
            setup_backend os host port args.(args_debug) (negb no_browser)
              false
              (args.(args_lldb) || str_in "lldb-mi" (lower args.(args_gdb)))
              cfg
        end
    end.

(** Lines 326-357.  [p] is what [parse_args] does with the command line:
    when [argparse] exits by itself, nothing of the module has run. *)
Definition main (os : host_os) (p : parsed)
    : list action * ending * app_config :=
  match p with
  | ParserExit code output => ([ParserOutput output], Exit code, initial_config)
  | Parsed args => main_parsed os args
  end.

(** What the handlers read once the server runs: the configuration
    [main] left, [app.debug] as [socketio.run] set it, and the flag of the
    platform check. *)
Definition env_of (platform : string) (args : cli_args) : module_env :=
  import_module platform
    (args.(args_lldb) || str_in "lldb-mi" (lower args.(args_gdb)))
    args.(args_gdb) args.(args_debug).

(** * Vocabulary of the statements *)

(** The store after [dbprint] was called with strings that join to
    [text]: one more line on [stdout] in debug mode, the same store
    otherwise. *)
Definition print_line (env : module_env) (text : string) (s : state) : state :=
  if env.(debug)
  then add_stdout (CYELLOW2 ++ "DEBUG: " ++ text ++ NORMAL) s
  else s.

(** A controller of pid [p] whose [write] and [exit] return, with the
    given outcomes of its polls. *)
Definition healthy (p : Z) (script : list poll_outcome) : GdbController :=
  mkController p script None None [] false.

Local Open Scope list_scope.

(** The poll returns (a list, maybe empty) rather than raises. *)
Definition is_records (o : poll_outcome) : bool :=
  match o with
  | PollRecords _ => true
  | PollRaise _ => false
  end.

(** An entry the reader gets through: a controller (not [None]) and, when
    [app.debug] is set, one whose polls do not raise. *)
Definition entry_safe (env : module_env) (kv : string * option GdbController)
    : bool :=
  match snd kv with
  | None => false
  | Some g => negb (debug env) || forallb is_records (poll_script g)
  end.

(** The entry after its controller was polled once. *)
Definition poll_entry (kv : string * option GdbController)
    : string * option GdbController :=
  match kv with
  | (k, Some g) => (k, Some (fst (controller_poll g)))
  | (k, None) => (k, None)
  end.

(** The event one poll of the entry's controller gives rise to. *)
Definition entry_events (kv : string * option GdbController) : list event :=
  match kv with
  | (k, Some g) =>
      match snd (controller_poll g) with
      | PollRecords (r :: rs) => [(k, gdb_response (r :: rs))]
      | _ => []
      end
  | (_, None) => []
  end.

(** Two stores that differ in the dict, the events and [stdout] only. *)
Definition same_globals (s s' : state) : Prop :=
  DEFAULT_GDB_ARGS s' = DEFAULT_GDB_ARGS s /\
  DEFAULT_LLDB_ARGS s' = DEFAULT_LLDB_ARGS s /\
  gdb_reader_thread s' = gdb_reader_thread s /\
  spawned s' = spawned s /\
  started s' = started s.

(** Two browser tabs connect, and get the controllers [ga] and [gb]. *)
Definition two_clients (ga gb : GdbController) : list sys_event :=
  [Handler (Connect "tabA" (fun _ _ => Done ga));
   Handler (Connect "tabB" (fun _ _ => Done gb))].

(** The records a client receives, in order: the payloads of the
    [gdb_response] events addressed to its room, concatenated. *)
Definition delivered (sid : string) (evs : list event) : list record :=
  flat_map (fun ev : event =>
              match ev with
              | (room, gdb_response rs) =>
                  if String.eqb room sid then rs else []
              | _ => []
              end) evs.

(** The records one poll reads from the process. *)
Definition records_of (o : poll_outcome) : list record :=
  match o with
  | PollRecords rs => rs
  | PollRaise _ => []
  end.

(** One session, of client [tabA], with the reader running. *)
Definition one_session (g : GdbController) : state :=
  set_reader_thread (Some Running)
    (set_controllers [("tabA"%string, Some g)] initial_state).

(** The guard of line 147 keeps the count of started readers in step with
    the recorded task: none recorded, none started; one recorded, one
    started. *)
Definition guard_inv (s : state) : Prop :=
  match gdb_reader_thread s with
  | None => started s = 0
  | Some _ => started s = 1
  end.

(** What every step keeps: the invariant, and a recorded task stays
    recorded (no line of the module sets [gdb_reader_thread] back to
    [None]). *)
Definition guard_kept (s s' : state) : Prop :=
  (guard_inv s -> guard_inv s') /\
  (gdb_reader_thread s <> None -> gdb_reader_thread s' <> None).

(** A well-formed session table: no key twice, and no value [None]. *)
Definition wf_dict (d : dict) : Prop :=
  NoDup (map fst d) /\ Forall (fun kv => snd kv <> None) d.

(** The client a handler event comes from. *)
Definition hevent_sid (h : hevent) : string :=
  match h with
  | Connect sid _ => sid
  | RunCommand sid _ => sid
  | Disconnect sid => sid
  end.

(** The controller [g] after more was written to it. *)
Definition with_written (g : GdbController) (w : list cmd) : GdbController :=
  mkController (pid g) (poll_script g) (write_fault g) (exit_fault g) w
               (exited g).

(** Events in which no handler runs during a tick. *)
Definition undisturbed (ev : sys_event) : bool :=
  match ev with
  | Handler _ => true
  | Tick [] => true
  | Tick (_ :: _) => false
  end.

(** Every argument is a [str]. *)
Definition all_str (args : list pyarg) : bool :=
  forallb (fun a => match a with PStr _ => true | PExn _ => false end) args.

(** A string of decimal digits. *)
Fixpoint all_digits (s : string) : bool :=
  match s with
  | EmptyString => true
  | String c s' => is_digit c && all_digits s'
  end.

Definition is_run (a : action) : bool :=
  match a with
  | SocketioRun _ _ _ _ => true
  | _ => false
  end.

Definition is_open_browser (a : action) : bool :=
  match a with
  | OpenBrowser _ => true
  | _ => false
  end.

(** The three components of what [main] and [setup_backend] return. *)
Definition actions_of (r : list action * ending * app_config) : list action :=
  fst (fst r).
Definition ending_of (r : list action * ending * app_config) : ending :=
  snd (fst r).
Definition config_of (r : list action * ending * app_config) : app_config :=
  snd r.

(** [obj[key]] for a JSON object; [None] when the key is missing. *)
Fixpoint json_get (key : string) (obj : list (string * json)) : option json :=
  match obj with
  | [] => None
  | (k, v) :: rest => if String.eqb key k then Some v else json_get key rest
  end.

(** The path of the request names a file: it is there, not empty, and
    [os.path.isfile] says yes. *)
Definition names_file (isfile : string -> bool) (path : option string)
    (p : string) : Prop :=
  path = Some p /\ p <> EmptyString /\ isfile p = true.

(** [s] reads [darwin-], then the digits [g] (at least one), then a dot. *)
Definition darwin_major (s g : string) : Prop :=
  g <> EmptyString /\ all_digits g = true /\
  exists rest, s = ("darwin-" ++ g ++ "." ++ rest)%string.

(** The mode [main] hands to [setup_backend]. *)
Definition lldb_mode (args : cli_args) : bool :=
  args_lldb args || str_in "lldb-mi" (lower (args_gdb args)).

(** [verify_gdb_exists] lets this path through. *)
Definition gdb_accepted (os : host_os) (path : string) : bool :=
  find_executable os path
  && negb (str_in "lldb" (lower path) && negb (str_in "lldb-mi" (lower path))).

Definition port_parsed (args : cli_args) : bool :=
  match args_port args with
  | Done _ => true
  | Raise _ => false
  end.

(** The start-up checks of [main] and [setup_backend] on a parsed command
    line: no [--version], a gdb path that [verify_gdb_exists] accepts, a
    port that is a number and, in lldb mode, [lldb-server] found. *)
Definition startup_checks_pass (os : host_os) (args : cli_args) : bool :=
  negb (args_version args)
  && gdb_accepted os (args_gdb args)
  && port_parsed args
  && (negb (lldb_mode args) || find_executable os LLDB_SERVER_PATH).

(** The host the server is asked to listen on. *)
Definition effective_host (args : cli_args) : string :=
  if args_remote args then "0.0.0.0"%string else args_host args.

(** The address to print is available: the host is [DEFAULT_HOST], or
    the host name of the machine resolves. *)
Definition host_resolves (os : host_os) (args : cli_args) : bool :=
  match host_shown os (effective_host args) with
  | Done _ => true
  | Raise _ => false
  end.

(** The conditions under which [main] gets to [socketio.run]. *)
Definition server_runs (os : host_os) (p : parsed) : bool :=
  match p with
  | Parsed args => startup_checks_pass os args && host_resolves os args
  | ParserExit _ _ => false
  end.

(** The conditions under which [main] opens the browser. *)
Definition browser_opens (os : host_os) (p : parsed) : bool :=
  match p with
  | Parsed args =>
      startup_checks_pass os args
      && negb (args_remote args) && negb (args_no_browser args)
      && negb (args_debug args)
  | ParserExit _ _ => false
  end.

(** * Properties *)

(** ** Basic facts on the dict and on [dbprint] *)

Lemma dict_get_set_same (k : string) (v : option GdbController) (d : dict) :
  dict_get k (dict_set k v d) = Some v.
Proof.
  induction d as [|[k' v'] d IH]; simpl.
  - now rewrite String.eqb_refl.
  - destruct (String.eqb k k') eqn:E; simpl; rewrite E; auto.
Qed.

Lemma dict_mem_false_get (k : string) (d : dict) :
  dict_mem k d = false -> dict_get k d = None.
Proof. unfold dict_mem. now destruct (dict_get k d). Qed.

Lemma dict_get_in_keys (k : string) (d : dict) (v : option GdbController) :
  dict_get k d = Some v -> In k (map fst d).
Proof.
  induction d as [|[k' v'] d IH]; simpl; [discriminate|].
  destruct (String.eqb_spec k k'); auto.
Qed.

Lemma dict_get_not_in_keys (k : string) (d : dict) :
  ~ In k (map fst d) -> dict_get k d = None.
Proof.
  induction d as [|[k' v'] d IH]; simpl; auto.
  intros H. destruct (String.eqb_spec k k'); [subst; tauto|auto].
Qed.

(** After [pop], the key is gone: keys are unique in a dict. *)
Lemma dict_get_pop_same (k : string) (d : dict) :
  NoDup (map fst d) -> dict_get k (dict_pop k d) = None.
Proof.
  induction d as [|[k' v'] d IH]; simpl; auto.
  intros H. inversion H as [|? ? Hn Hd]; subst.
  destruct (String.eqb_spec k k') as [->|Hne].
  - now apply dict_get_not_in_keys.
  - simpl. destruct (String.eqb_spec k k'); [contradiction|auto].
Qed.

Lemma dbprint_str (env : module_env) (x : string) (s : state) :
  dbprint env [PStr x] s = (print_line env x s, Done tt).
Proof. unfold dbprint, print_line. now destruct (debug env). Qed.

Lemma dbprint_str2 (env : module_env) (x y : string) (s : state) :
  dbprint env [PStr x; PStr y] s = (print_line env (x ++ " " ++ y) s, Done tt).
Proof. unfold dbprint, print_line. now destruct (debug env). Qed.

Lemma print_line_fields (env : module_env) (x : string) (s : state) :
  let s' := print_line env x s in
  DEFAULT_GDB_ARGS s' = DEFAULT_GDB_ARGS s /\
  DEFAULT_LLDB_ARGS s' = DEFAULT_LLDB_ARGS s /\
  gdb_controllers s' = gdb_controllers s /\
  gdb_reader_thread s' = gdb_reader_thread s /\
  emitted s' = emitted s /\
  spawned s' = spawned s /\
  started s' = started s.
Proof. unfold print_line. destruct (debug env); simpl; repeat split. Qed.

Section PrintLine.
Variables (env : module_env) (x : string) (s : state).

Lemma print_line_gdb_args :
  DEFAULT_GDB_ARGS (print_line env x s) = DEFAULT_GDB_ARGS s.
Proof. apply print_line_fields. Qed.
Lemma print_line_lldb_args :
  DEFAULT_LLDB_ARGS (print_line env x s) = DEFAULT_LLDB_ARGS s.
Proof. apply print_line_fields. Qed.
Lemma print_line_controllers :
  gdb_controllers (print_line env x s) = gdb_controllers s.
Proof. apply print_line_fields. Qed.
Lemma print_line_reader_thread :
  gdb_reader_thread (print_line env x s) = gdb_reader_thread s.
Proof. apply print_line_fields. Qed.
Lemma print_line_emitted : emitted (print_line env x s) = emitted s.
Proof. apply print_line_fields. Qed.
Lemma print_line_spawned : spawned (print_line env x s) = spawned s.
Proof. apply print_line_fields. Qed.
Lemma print_line_started : started (print_line env x s) = started s.
Proof. apply print_line_fields. Qed.
End PrintLine.

Create Rewrite HintDb frame.
#[global] Hint Rewrite print_line_gdb_args print_line_lldb_args
  print_line_controllers print_line_reader_thread print_line_emitted
  print_line_spawned print_line_started : frame.

Ltac unfold_py :=
  unfold bind, ret, raise, get, modify, emit, try_except in *.

(** ** The platform check and the first connect *)

Example flag_on_linux :
  startup_with_shell_off "Linux-5.4.0-x86_64-with-glibc2.29" = Some false.
Proof. reflexivity. Qed.

Example flag_on_sierra :
  startup_with_shell_off "Darwin-16.7.0-x86_64-i386-64bit" = Some true.
Proof. reflexivity. Qed.

Example flag_on_el_capitan :
  startup_with_shell_off "Darwin-15.6.0-x86_64-i386-64bit" = None.
Proof. reflexivity. Qed.

Example flag_without_dot :
  startup_with_shell_off "Darwin-15" = Some false.
Proof. reflexivity. Qed.

(** C9.  On a platform string that the pattern [darwin-(\d+)\..*] matches
    with a major version below 16, the module-level check leaves
    [STARTUP_WITH_SHELL_OFF] unbound, and a connect of a client that has no
    session yet (the first connect in particular) raises [NameError] on
    reading the flag: the exception leaves the handler, nothing is spawned,
    nothing is emitted and no session is stored. *)
Theorem connect_name_error_on_old_darwin
    (platform g : string) (lldb : bool) (path : string) (dbg : bool)
    (sid : string) (spawn : spawner) (s : state) :
  re_match_darwin (lower platform) = Some g ->
  (int g < 16)%Z ->
  dict_mem sid (gdb_controllers s) = false ->
  let env := import_module platform lldb path dbg in
  STARTUP_WITH_SHELL_OFF env = None /\
  exists s',
    client_connected env sid spawn s
      = (s', Raise (NameError "STARTUP_WITH_SHELL_OFF")) /\
    gdb_controllers s' = gdb_controllers s /\
    spawned s' = spawned s /\
    emitted s' = emitted s /\
    started s' = started s /\
    gdb_reader_thread s' = gdb_reader_thread s.
Proof.
  intros Hm Hlt Hnew env.
  assert (Hflag : STARTUP_WITH_SHELL_OFF env = None).
  { unfold env, import_module, startup_with_shell_off; simpl.
    rewrite Hm. destruct (int g >=? 16)%Z eqn:E; [lia|reflexivity]. }
  split; [exact Hflag|]. clearbody env.
  unfold client_connected, connect_session. unfold_py.
  rewrite dbprint_str, print_line_controllers, Hnew. simpl.
  rewrite dbprint_str2, Hflag.
  eexists; split; [reflexivity|].
  autorewrite with frame. repeat split.
Qed.

Lemma connect_name_error_on_old_darwin_witness :
  let env := import_module "Darwin-15.6.0-x86_64-i386-64bit" false "gdb" false in
  STARTUP_WITH_SHELL_OFF env = None /\
  exists s',
    client_connected env "tab1" (fun _ _ => Raise (Raised "unused")) initial_state
      = (s', Raise (NameError "STARTUP_WITH_SHELL_OFF")) /\
    gdb_controllers s' = gdb_controllers initial_state /\
    spawned s' = spawned initial_state /\
    emitted s' = emitted initial_state /\
    started s' = started initial_state /\
    gdb_reader_thread s' = gdb_reader_thread initial_state.
Proof.
  apply (@connect_name_error_on_old_darwin
           "Darwin-15.6.0-x86_64-i386-64bit" "15" false "gdb" false "tab1"
           (fun _ _ => Raise (Raised "unused")) initial_state).
  - reflexivity.
  - reflexivity.
  - reflexivity.
Defined.

(** ** Connect *)

(** What [connect_session] leaves behind, case by case. *)
Lemma connect_session_known (env : module_env) (sid : string) (spawn : spawner)
    (s : state) :
  dict_mem sid (gdb_controllers s) = true ->
  connect_session env sid spawn s
  = (print_line env ("Client websocket connected in async mode " ++ dquote
                      ++ "eventlet" ++ dquote ++ ", id " ++ sid) s, Done tt).
Proof.
  intros H. unfold connect_session. unfold_py.
  now rewrite dbprint_str, print_line_controllers, H.
Qed.

Lemma connect_session_new (env : module_env) (sid : string) (spawn : spawner)
    (s : state) :
  dict_mem sid (gdb_controllers s) = false ->
  exists s', exists r,
    connect_session env sid spawn s = (s', r) /\
    emitted s' = emitted s /\
    started s' = started s /\
    gdb_reader_thread s' = gdb_reader_thread s /\
    match r with
    | Done _ => exists g, gdb_controllers s' = dict_set sid (Some g) (gdb_controllers s)
    | Raise _ => gdb_controllers s' = gdb_controllers s
    end.
Proof.
  intros H. unfold connect_session. unfold_py.
  rewrite dbprint_str, print_line_controllers, H. simpl.
  rewrite dbprint_str2.
  destruct (STARTUP_WITH_SHELL_OFF env) as [[|]|]; simpl.
  - match goal with |- context [spawn ?p ?a] => destruct (spawn p a) as [g|e] end;
      simpl; do 2 eexists; (split; [reflexivity|]);
      destruct (LLDB env); simpl; autorewrite with frame;
      repeat split; eexists; reflexivity.
  - match goal with |- context [spawn ?p ?a] => destruct (spawn p a) as [g|e] end;
      simpl; do 2 eexists; (split; [reflexivity|]);
      simpl; autorewrite with frame; repeat split; eexists; reflexivity.
  - do 2 eexists; split; [reflexivity|].
    autorewrite with frame. repeat split.
Qed.

(** Lines 144-149, once the session is in the dict. *)
Lemma connect_tail (env : module_env) (sid : string) (s : state)
    (g : GdbController) :
  dict_get sid (gdb_controllers s) = Some (Some g) ->
  exists s',
    (connect_emit_pid sid ;; t <- connect_guard_call ;; connect_guard_store env t) s
      = (s', Done tt) /\
    emitted s' = (emitted s ++ [(sid, gdb_pid (pid g))])%list /\
    gdb_controllers s' = gdb_controllers s /\
    spawned s' = spawned s /\
    DEFAULT_GDB_ARGS s' = DEFAULT_GDB_ARGS s /\
    DEFAULT_LLDB_ARGS s' = DEFAULT_LLDB_ARGS s /\
    gdb_reader_thread s'
      = Some (match gdb_reader_thread s with Some t => t | None => Running end) /\
    started s'
      = match gdb_reader_thread s with
        | None => S (started s)
        | Some _ => started s
        end.
Proof.
  intros H. unfold connect_emit_pid, connect_guard_call, connect_guard_store.
  unfold_py. rewrite H. simpl.
  destruct (gdb_reader_thread s) as [t|] eqn:Ht; simpl.
  - eexists; split; [reflexivity|]. simpl. rewrite Ht. repeat split.
  - rewrite dbprint_str. eexists; split; [reflexivity|].
    autorewrite with frame. simpl. repeat split.
Qed.

Lemma connect_tail_raises (env : module_env) (sid : string) (s : state) :
  (forall g, dict_get sid (gdb_controllers s) <> Some (Some g)) ->
  exists e,
    (connect_emit_pid sid ;; t <- connect_guard_call ;; connect_guard_store env t) s
      = (s, Raise e).
Proof.
  intros H. unfold connect_emit_pid. unfold_py.
  destruct (dict_get sid (gdb_controllers s)) as [[g|]|].
  - now elim (H g).
  - now eexists.
  - now eexists.
Qed.

Lemma client_connected_eq (env : module_env) (sid : string) (spawn : spawner)
    (s : state) :
  client_connected env sid spawn s
  = match connect_session env sid spawn s with
    | (s1, Done _) =>
        (connect_emit_pid sid ;; t <- connect_guard_call ;;
         connect_guard_store env t) s1
    | (s1, Raise e) => (s1, Raise e)
    end.
Proof.
  unfold client_connected. unfold bind at 1.
  now destruct (connect_session env sid spawn s) as [s1 [[]|e]].
Qed.

(** C10, as amended.  A connect whose handler returns normally emits
    exactly one [gdb_pid] event, to the connecting client, with the pid of
    the controller the dict holds for it; when the client already had a
    session this leaves the dict alone and spawns nothing.  The handler
    raises only for a client that did not own a controller when it
    connected: a repeated connect always returns normally and emits the
    event again.  Where the shell flag is bound, a handler that raises (its
    spawn failed) has emitted nothing. *)
Theorem connect_emits_gdb_pid (env : module_env) (sid : string)
    (spawn : spawner) (s : state) :
  match client_connected env sid spawn s with
  | (s', Done _) =>
      exists g,
        dict_get sid (gdb_controllers s') = Some (Some g) /\
        emitted s' = (emitted s ++ [(sid, gdb_pid (pid g))])%list /\
        match dict_get sid (gdb_controllers s) with
        | Some _ =>
            gdb_controllers s' = gdb_controllers s /\ spawned s' = spawned s
        | None => True
        end
  | (s', Raise _) =>
      (forall g, dict_get sid (gdb_controllers s) <> Some (Some g)) /\
      (STARTUP_WITH_SHELL_OFF env <> None -> emitted s' = emitted s)
  end.
Proof.
  rewrite client_connected_eq.
  destruct (dict_mem sid (gdb_controllers s)) eqn:Hmem.
  - rewrite (connect_session_known env sid spawn s Hmem).
    set (s1 := print_line _ _ s).
    assert (Hc : gdb_controllers s1 = gdb_controllers s)
      by apply print_line_controllers.
    assert (He : emitted s1 = emitted s) by apply print_line_emitted.
    assert (Hs : spawned s1 = spawned s) by apply print_line_spawned.
    clearbody s1.
    unfold dict_mem in Hmem.
    destruct (dict_get sid (gdb_controllers s)) as [[g|]|] eqn:Hg;
      try discriminate.
    + destruct (@connect_tail env sid s1 g) as (s' & E & H1 & H2 & H3 & _).
      { now rewrite Hc. }
      rewrite E. exists g. rewrite H1, H2, H3, Hc, He, Hs, Hg. auto.
    + destruct (@connect_tail_raises env sid s1) as (e & E).
      { rewrite Hc, Hg. congruence. }
      rewrite E. split; [congruence|intros _; exact He].
  - destruct (connect_session_new env sid spawn s Hmem)
      as (s1 & r & E & He & _ & _ & Hr).
    rewrite E. rewrite (dict_mem_false_get _ _ Hmem).
    destruct r as [[]|e].
    + destruct Hr as (g & Hg).
      destruct (@connect_tail env sid s1 g) as (s' & E' & H1 & H2 & _).
      { rewrite Hg. apply dict_get_set_same. }
      rewrite E'. exists g. rewrite H2, Hg, H1, He.
      repeat split. apply dict_get_set_same.
    + split; [congruence|intros _; exact He].
Qed.

(** The claim as written fails: a connect whose spawn fails (here the
    gdb executable cannot be run) leaves the handler at line 141, before
    line 144, and no [gdb_pid] event is emitted. *)
Lemma connect_emits_gdb_pid_counterexample :
  let env := import_module "Linux-5.4.0-x86_64-with-glibc2.29" false "gdb" false in
  let spawn : spawner := fun _ _ => Raise (Raised "Permission denied") in
  let s' := fst (client_connected env "tab1" spawn initial_state) in
  snd (client_connected env "tab1" spawn initial_state)
    = Raise (Raised "Permission denied") /\
  ~ exists p, In ("tab1", gdb_pid p) (emitted s').
Proof. split; [reflexivity|]. simpl. intros [p []]. Qed.

(** C6, as amended.  When the spawn of a connect fails, the exception of
    the spawn leaves the handler.  The handler emits nothing (no [gdb_pid]
    and no error event either), stores no session, and does not reach the
    start of the reader; the one trace of the attempt is the call itself. *)
Theorem connect_spawn_failure (env : module_env) (sid : string)
    (spawn : spawner) (s : state) (b : bool) (e : exn) :
  dict_mem sid (gdb_controllers s) = false ->
  STARTUP_WITH_SHELL_OFF env = Some b ->
  (forall path args, spawn path args = Raise e) ->
  exists s',
    client_connected env sid spawn s = (s', Raise e) /\
    gdb_controllers s' = gdb_controllers s /\
    emitted s' = emitted s /\
    gdb_reader_thread s' = gdb_reader_thread s /\
    started s' = started s /\
    exists args, spawned s' = (spawned s ++ [(gdb_path env, args)])%list.
Proof.
  intros Hnew Hflag Hspawn.
  unfold client_connected, connect_session. unfold_py.
  rewrite dbprint_str, print_line_controllers, Hnew. simpl.
  rewrite dbprint_str2, Hflag.
  destruct b; simpl; rewrite Hspawn;
    (eexists; split; [reflexivity|]);
    destruct (LLDB env); simpl; autorewrite with frame;
    repeat split; eexists; reflexivity.
Qed.

Lemma connect_spawn_failure_witness :
  let env := import_module "Linux-5.4.0-x86_64-with-glibc2.29" false "gdb" false in
  let spawn : spawner := fun _ _ => Raise (Raised "No such file or directory") in
  exists s',
    client_connected env "tab1" spawn initial_state
      = (s', Raise (Raised "No such file or directory")) /\
    gdb_controllers s' = gdb_controllers initial_state /\
    emitted s' = emitted initial_state /\
    gdb_reader_thread s' = gdb_reader_thread initial_state /\
    started s' = started initial_state /\
    exists args, spawned s' = (spawned initial_state ++ [(gdb_path env, args)])%list.
Proof.
  apply (@connect_spawn_failure
           (import_module "Linux-5.4.0-x86_64-with-glibc2.29" false "gdb" false)
           "tab1" (fun _ _ => Raise (Raised "No such file or directory"))
           initial_state false (Raised "No such file or directory")).
  - reflexivity.
  - reflexivity.
  - reflexivity.
Defined.

(** The claim as written fails: after a failed spawn the trace of emitted
    events holds no error event for the client; it is empty. *)
Lemma connect_spawn_failure_counterexample :
  let env := import_module "Linux-5.4.0-x86_64-with-glibc2.29" false "gdb" false in
  let spawn : spawner := fun _ _ => Raise (Raised "No such file or directory") in
  let s' := fst (client_connected env "tab1" spawn initial_state) in
  ~ exists p, In ("tab1", p) (emitted s').
Proof. simpl. intros [p []]. Qed.

(** ** Commands *)

(** C8, as amended.  A command for a client without a session emits one
    [error_running_gdb_command] event to that client, with the message
    [gdb is not running], and changes nothing else in the store. *)
Theorem run_command_without_session (sid : string) (message : option cmd)
    (s : state) :
  dict_get sid (gdb_controllers s) = None ->
  run_gdb_command sid message s
  = (add_emitted (sid, error_running_gdb_command "gdb is not running") s,
     Done tt).
Proof.
  intros H. unfold run_gdb_command. unfold_py. now rewrite H.
Qed.

Lemma run_command_without_session_witness :
  run_gdb_command "tabB" (Some (CmdStr "info registers")) initial_state
  = (add_emitted ("tabB", error_running_gdb_command "gdb is not running")
                 initial_state, Done tt).
Proof.
  apply (@run_command_without_session "tabB" (Some (CmdStr "info registers"))
           initial_state).
  reflexivity.
Defined.

(** The claim as written fails on the text of the message. *)
Lemma run_command_without_session_counterexample :
  let s' := fst (run_gdb_command "tabB" (Some (CmdStr "info registers"))
                   initial_state) in
  ~ In ("tabB", error_running_gdb_command "debugger is not running")
       (emitted s').
Proof. simpl. intros [H|[]]. discriminate H. Qed.

(** ** Disconnect *)

(** C7, as amended.  For a dict with unique keys: when the client has a
    session and [exit] returns, the handler returns and the entry is gone,
    so that a second disconnect changes neither the dict nor the events;
    when [exit] raises, the exception leaves the handler and the entry is
    still in the dict; when the client has no session, the handler returns
    with the dict and the events as they were. *)
Theorem disconnect_cases (env : module_env) (sid : string) (s : state) :
  NoDup (map fst (gdb_controllers s)) ->
  match dict_get sid (gdb_controllers s) with
  | Some (Some g) =>
      match exit_fault g with
      | None =>
          exists s',
            client_disconnected env sid s = (s', Done tt) /\
            gdb_controllers s' = dict_pop sid (gdb_controllers s) /\
            dict_get sid (gdb_controllers s') = None /\
            emitted s' = emitted s /\
            exists s'',
              client_disconnected env sid s' = (s'', Done tt) /\
              gdb_controllers s'' = gdb_controllers s' /\
              emitted s'' = emitted s'
      | Some m =>
          exists s',
            client_disconnected env sid s = (s', Raise (Raised m)) /\
            gdb_controllers s' = gdb_controllers s /\
            dict_get sid (gdb_controllers s') = Some (Some g)
      end
  | Some None =>
      exists s',
        client_disconnected env sid s = (s', Raise AttributeError) /\
        gdb_controllers s' = gdb_controllers s
  | None =>
      exists s',
        client_disconnected env sid s = (s', Done tt) /\
        gdb_controllers s' = gdb_controllers s /\
        emitted s' = emitted s
  end.
Proof.
  intros Hnd.
  assert (Habsent : forall t, dict_get sid (gdb_controllers t) = None ->
            exists t', client_disconnected env sid t = (t', Done tt) /\
                       gdb_controllers t' = gdb_controllers t /\
                       emitted t' = emitted t).
  { intros t Ht. unfold client_disconnected. unfold_py.
    rewrite dbprint_str, print_line_controllers.
    unfold dict_mem. rewrite Ht.
    eexists; split; [reflexivity|]. autorewrite with frame. auto. }
  destruct (dict_get sid (gdb_controllers s)) as [[g|]|] eqn:Hg.
  - destruct (exit_fault g) as [m|] eqn:Hx.
    + unfold client_disconnected. unfold_py.
      rewrite dbprint_str, print_line_controllers.
      unfold dict_mem. rewrite Hg. rewrite dbprint_str.
      unfold controller_exit. rewrite Hx.
      eexists; split; [reflexivity|]. autorewrite with frame. auto.
    + assert (E : exists s',
                client_disconnected env sid s = (s', Done tt) /\
                gdb_controllers s' = dict_pop sid (gdb_controllers s) /\
                emitted s' = emitted s).
      { unfold client_disconnected. unfold_py.
        rewrite dbprint_str, print_line_controllers.
        unfold dict_mem. rewrite Hg. rewrite dbprint_str.
        unfold controller_exit. rewrite Hx.
        eexists; split; [reflexivity|]. simpl. autorewrite with frame. auto. }
      destruct E as (s' & E & Hc & He).
      assert (Hgone : dict_get sid (gdb_controllers s') = None).
      { rewrite Hc. now apply dict_get_pop_same. }
      exists s'. repeat split; auto.
  - unfold client_disconnected. unfold_py.
    rewrite dbprint_str, print_line_controllers.
    unfold dict_mem. rewrite Hg.
    eexists; split; [reflexivity|]. autorewrite with frame. auto.
  - now apply Habsent.
Qed.

Lemma disconnect_cases_witness :
  let env := import_module "Linux-5.4.0-x86_64-with-glibc2.29" false "gdb" true in
  let s := set_controllers [("tab1", Some (healthy 4242 []))] initial_state in
  exists s',
    client_disconnected env "tab1" s = (s', Done tt) /\
    gdb_controllers s' = dict_pop "tab1" (gdb_controllers s) /\
    dict_get "tab1" (gdb_controllers s') = None /\
    emitted s' = emitted s /\
    exists s'',
      client_disconnected env "tab1" s' = (s'', Done tt) /\
      gdb_controllers s'' = gdb_controllers s' /\
      emitted s'' = emitted s'.
Proof.
  apply (@disconnect_cases
           (import_module "Linux-5.4.0-x86_64-with-glibc2.29" false "gdb" true)
           "tab1"
           (set_controllers [("tab1", Some (healthy 4242 []))] initial_state)).
  simpl. constructor; [intros []|constructor].
Defined.

(** The claim as written fails: when [exit] raises, the handler raises
    and the entry stays in the session table. *)
Lemma disconnect_cases_counterexample :
  let env := import_module "Linux-5.4.0-x86_64-with-glibc2.29" false "gdb" false in
  let g := mkController 4242 [] None (Some "No such process") [] false in
  let s := set_controllers [("tab1", Some g)] initial_state in
  snd (client_disconnected env "tab1" s) = Raise (Raised "No such process") /\
  dict_mem "tab1" (gdb_controllers (fst (client_disconnected env "tab1" s)))
    = true.
Proof. split; reflexivity. Qed.

(** ** The startup arguments *)

(** With the shell flag off (or LLDB or not), no connect changes the
    module-level lists, so every spawn receives the same arguments. *)
Lemma connect_args_fixed (env : module_env) (sid : string) (spawn : spawner)
    (s : state) :
  STARTUP_WITH_SHELL_OFF env = Some false ->
  let s' := fst (client_connected env sid spawn s) in
  DEFAULT_GDB_ARGS s' = DEFAULT_GDB_ARGS s /\
  DEFAULT_LLDB_ARGS s' = DEFAULT_LLDB_ARGS s.
Proof.
  intros Hflag. rewrite client_connected_eq.
  assert (Hs : exists s1 r, connect_session env sid spawn s = (s1, r) /\
             DEFAULT_GDB_ARGS s1 = DEFAULT_GDB_ARGS s /\
             DEFAULT_LLDB_ARGS s1 = DEFAULT_LLDB_ARGS s /\
             (r = Done tt ->
              exists g, dict_get sid (gdb_controllers s1) = Some g)).
  { destruct (dict_mem sid (gdb_controllers s)) eqn:Hmem.
    - rewrite (connect_session_known env sid spawn s Hmem).
      do 2 eexists; split; [reflexivity|]. autorewrite with frame.
      repeat split. unfold dict_mem in Hmem.
      destruct (dict_get sid (gdb_controllers s)); [eauto|discriminate].
    - unfold connect_session. unfold_py.
      rewrite dbprint_str, print_line_controllers, Hmem. simpl.
      rewrite dbprint_str2, Hflag. simpl.
      match goal with |- context [spawn ?p ?a] => destruct (spawn p a) end;
        do 2 eexists; (split; [reflexivity|]); simpl;
        autorewrite with frame; repeat split; try discriminate.
      intros _. eexists. apply dict_get_set_same. }
  destruct Hs as (s1 & r & E & Hg & Hl & Hr). rewrite E.
  destruct r as [[]|e]; [|simpl; auto].
  destruct (Hr eq_refl) as ([g|] & Hget).
  - destruct (@connect_tail env sid s1 g Hget) as (s' & E' & _ & _ & _ & A & B & _).
    rewrite E'. simpl. split; congruence.
  - destruct (@connect_tail_raises env sid s1) as (e & E').
    { rewrite Hget. congruence. }
    rewrite E'. simpl. auto.
Qed.

(** With the shell flag on, [gdb_args.append] writes through the alias:
    a connect that spawns leaves the module-level list one item longer, and
    that longer list is what the spawn receives. *)
Lemma connect_args_append (env : module_env) (sid : string) (spawn : spawner)
    (s : state) :
  STARTUP_WITH_SHELL_OFF env = Some true ->
  LLDB env = false ->
  dict_mem sid (gdb_controllers s) = false ->
  let s' := fst (client_connected env sid spawn s) in
  DEFAULT_GDB_ARGS s' = (DEFAULT_GDB_ARGS s ++ [shell_off_arg])%list /\
  spawned s' = (spawned s ++ [(gdb_path env, DEFAULT_GDB_ARGS s')])%list.
Proof.
  intros Hflag Hl Hmem. rewrite client_connected_eq.
  assert (Hs : exists s1 r, connect_session env sid spawn s = (s1, r) /\
             DEFAULT_GDB_ARGS s1 = (DEFAULT_GDB_ARGS s ++ [shell_off_arg])%list /\
             spawned s1 = (spawned s ++ [(gdb_path env, DEFAULT_GDB_ARGS s1)])%list /\
             (r = Done tt ->
              exists g, dict_get sid (gdb_controllers s1) = Some (Some g))).
  { unfold connect_session. unfold_py.
    rewrite dbprint_str, print_line_controllers, Hmem. simpl.
    rewrite dbprint_str2, Hflag, Hl. simpl.
    match goal with |- context [spawn ?p ?a] => destruct (spawn p a) end;
      do 2 eexists; (split; [reflexivity|]); simpl;
      autorewrite with frame; repeat split; try discriminate.
    intros _. eexists. apply dict_get_set_same. }
  destruct Hs as (s1 & r & E & Hg & Hsp & Hr). rewrite E.
  destruct r as [[]|e]; [|simpl; auto].
  destruct (Hr eq_refl) as (g & Hget).
  destruct (@connect_tail env sid s1 g Hget) as (s' & E' & _ & _ & A & B & _).
  rewrite E'. simpl. rewrite B, A. auto.
Qed.

(** C5, at the failing input.  On macOS 16 two clients connect; the first
    spawn receives three arguments, the second four: the option appended
    for the first client is still in [DEFAULT_GDB_ARGS] when the second
    client connects, and is appended once more. *)
Theorem connect_args_grow_on_darwin16 :
  let env := import_module "Darwin-16.7.0-x86_64-i386-64bit" false "gdb" false in
  let s2 := run env [Handler (Connect "tab1" (fun _ _ => Done (healthy 4242 [])));
                     Handler (Connect "tab2" (fun _ _ => Done (healthy 4243 [])))]
                initial_state in
  spawned s2
  = [("gdb", ["-nx"; "--interpreter=mi2"; shell_off_arg]);
     ("gdb", ["-nx"; "--interpreter=mi2"; shell_off_arg; shell_off_arg])] /\
  map fst (gdb_controllers s2) = ["tab1"; "tab2"] /\
  DEFAULT_GDB_ARGS s2
  = ["-nx"; "--interpreter=mi2"; shell_off_arg; shell_off_arg].
Proof. repeat split. Qed.

(** ** The reader: one tick with no handler in between *)

Lemma same_globals_refl (s : state) : same_globals s s.
Proof. repeat split. Qed.

Lemma same_globals_trans (s1 s2 s3 : state) :
  same_globals s1 s2 -> same_globals s2 s3 -> same_globals s1 s3.
Proof. unfold same_globals. intuition congruence. Qed.

Lemma dict_update_at_app (pre : dict) (k : string)
    (v0 v : option GdbController) (rest : dict) :
  dict_update_at (List.length pre) v (pre ++ (k, v0) :: rest)
  = (pre ++ (k, v) :: rest)%list.
Proof. induction pre as [|[k' v'] pre IH]; simpl; [reflexivity|now rewrite IH]. Qed.

Lemma nth_error_app_here {A} (pre : list A) (x : A) (rest : list A) :
  nth_error (pre ++ x :: rest) (List.length pre) = Some x.
Proof. induction pre; simpl; auto. Qed.

(** The body on a safe entry: the controller is polled, a non-empty
    answer is emitted as one event, and the loop goes on. *)
Lemma reader_body_safe (env : module_env) (pre rest : dict) (k : string)
    (g : GdbController) (s : state) :
  gdb_controllers s = (pre ++ (k, Some g) :: rest)%list ->
  entry_safe env (k, Some g) = true ->
  exists s1,
    reader_body env (List.length pre) k (Some g) s = (s1, Done Next) /\
    gdb_controllers s1 = (pre ++ poll_entry (k, Some g) :: rest)%list /\
    emitted s1 = (emitted s ++ entry_events (k, Some g))%list /\
    same_globals s s1.
Proof.
  intros Hd Hsafe. unfold reader_body, entry_events, poll_entry.
  unfold entry_safe in Hsafe. simpl in Hsafe.
  destruct (controller_poll g) as [g' o] eqn:Hp. simpl.
  unfold_py. rewrite Hd, dict_update_at_app.
  destruct o as [[|r rs]|e]; simpl.
  - eexists; split; [reflexivity|]. simpl.
    rewrite app_nil_r. repeat split.
  - rewrite dbprint_str. eexists; split; [reflexivity|].
    unfold same_globals. simpl. autorewrite with frame. simpl. repeat split.
  - assert (Hdbg : debug env = false).
    { destruct (debug env); [|reflexivity]. simpl in Hsafe.
      unfold controller_poll in Hp.
      destruct (poll_script g) as [|o script]; [discriminate|].
      inversion Hp; subst. simpl in Hsafe. discriminate. }
    unfold dbprint. rewrite Hdbg. simpl.
    eexists; split; [reflexivity|]. simpl.
    rewrite app_nil_r. repeat split.
Qed.

Lemma for_items_quiet (env : module_env) (rest : dict) :
  forall (pre : dict) (s : state) (fuel size0 : nat),
    gdb_controllers s = pre ++ rest ->
    size0 = List.length pre + List.length rest ->
    forallb (entry_safe env) rest = true ->
    List.length rest < fuel ->
    exists s',
      for_items env fuel (List.length pre) size0 [] s = (s', Done tt) /\
      gdb_controllers s' = pre ++ map poll_entry rest /\
      emitted s' = emitted s ++ flat_map entry_events rest /\
      same_globals s s'.
Proof.
  induction rest as [|[k v] rest IH]; intros pre s fuel size0 Hd Hsz Hsafe Hfuel.
  - destruct fuel as [|fuel]; [lia|]. simpl.
    rewrite Hd, length_app, <- Hsz, Nat.eqb_refl. simpl.
    rewrite app_nil_r.
    assert (Hn : nth_error pre (List.length pre) = None)
      by (apply nth_error_None; lia).
    rewrite Hn. exists s. rewrite Hd, !app_nil_r.
    repeat split.
  - destruct fuel as [|fuel]; [lia|].
    simpl in Hsafe. apply andb_true_iff in Hsafe. destruct Hsafe as [Hkv Hsafe].
    destruct v as [g|]; [|discriminate].
    destruct (@reader_body_safe env pre rest k g s Hd Hkv)
      as (s1 & Hb & Hd1 & He1 & Hg1).
    assert (Hlen : (List.length (gdb_controllers s) =? size0)%nat = true)
      by (rewrite Hd, length_app, <- Hsz; apply Nat.eqb_refl).
    assert (Hnth : nth_error (gdb_controllers s) (List.length pre)
                   = Some (k, Some g))
      by (rewrite Hd; apply nth_error_app_here).
    cbn [for_items]. rewrite Hlen, Hnth, Hb.
    cbn [negb hd tl deliver].
    destruct (IH (pre ++ [poll_entry (k, Some g)]) s1 fuel size0)
      as (s' & Hrun & Hd' & He' & Hg').
    + now rewrite <- app_assoc.
    + rewrite length_app. simpl in *. lia.
    + exact Hsafe.
    + simpl in Hfuel. lia.
    + replace (S (List.length pre))
        with (List.length (pre ++ [poll_entry (k, Some g)]))
        by (rewrite length_app; simpl; lia).
      exists s'. split; [exact Hrun|].
      split; [now rewrite Hd', <- app_assoc|].
      split; [|now apply same_globals_trans with s1].
      rewrite He', He1. cbn [flat_map]. now rewrite <- app_assoc.
Qed.

(** A tick during which no handler runs, on a dict of safe entries: every
    controller is polled once, in the order of the dict; every non-empty
    answer is emitted as one event to the client the controller belongs
    to; the tick returns. *)
Lemma tick_quiet (env : module_env) (s : state) :
  forallb (entry_safe env) (gdb_controllers s) = true ->
  exists s',
    tick env [] s = (s', Done tt) /\
    gdb_controllers s' = map poll_entry (gdb_controllers s) /\
    emitted s' = emitted s ++ flat_map entry_events (gdb_controllers s) /\
    same_globals s s'.
Proof.
  intros Hsafe. unfold tick.
  apply (@for_items_quiet env (gdb_controllers s) [] s); auto.
Qed.

(** *** Fault isolation *)

(** Outside debug mode, [dbprint(e)] prints nothing and returns: a poll
    that raises costs the tick nothing, and the answer of every other
    controller is emitted in the same tick. *)
Lemma poll_fault_isolated_without_debug (env : module_env) (s : state)
    (kb : string) (gb : GdbController) (r : record) (rs : list record) :
  debug env = false ->
  (forall kv, In kv (gdb_controllers s) -> snd kv <> None) ->
  In (kb, Some gb) (gdb_controllers s) ->
  snd (controller_poll gb) = PollRecords (r :: rs) ->
  exists s',
    tick env [] s = (s', Done tt) /\
    In (kb, gdb_response (r :: rs)) (emitted s').
Proof.
  intros Hdbg Hall Hin Hpoll.
  destruct (@tick_quiet env s) as (s' & Ht & _ & He & _).
  { apply forallb_forall. intros [k v] Hkv. unfold entry_safe. simpl.
    destruct v as [g|]; [now rewrite Hdbg|]. now elim (Hall _ Hkv). }
  exists s'. split; [exact Ht|].
  rewrite He. apply in_or_app. right.
  apply in_flat_map. exists (kb, Some gb). split; [exact Hin|].
  simpl. rewrite Hpoll. now left.
Qed.

(** C2, at the failing input.  The server runs with [--debug].  Client A's
    gdb has exited, so polling it raises; client B's gdb has a response
    queued.  On the first tick the handler of the [except] clause calls
    [dbprint(e)], whose [' '.join(args)] raises [TypeError] on the
    exception object: the exception leaves the handler and the [while]
    loop, the reader task is dead, and B's response is never emitted, in
    that tick or in a later one.  The same input without [--debug] delivers
    B's response in the first tick. *)
Theorem poll_fault_kills_reader_in_debug_mode :
  let ga := healthy 100 [PollRaise (Raised "gdb process has exited")] in
  let gb := healthy 200 [PollRecords ["^done"%string]] in
  let dbg := import_module "Linux-5.4.0-x86_64-with-glibc2.29" false "gdb" true in
  let quiet := import_module "Linux-5.4.0-x86_64-with-glibc2.29" false "gdb" false in
  let s0 := run dbg (two_clients ga gb) initial_state in
  let s2 := run dbg [Tick []; Tick []] s0 in
  snd (tick dbg [] s0) = Raise TypeError /\
  gdb_reader_thread s2 = Some (Dead TypeError) /\
  emitted s2 = [("tabA"%string, gdb_pid 100); ("tabB"%string, gdb_pid 200)] /\
  emitted (run quiet (two_clients ga gb ++ [Tick []]) initial_state)
  = [("tabA"%string, gdb_pid 100); ("tabB"%string, gdb_pid 200);
     ("tabB"%string, gdb_response ["^done"%string])].
Proof. repeat split. Qed.

(** *** Order of delivery *)

Lemma delivered_app (sid : string) (e1 e2 : list event) :
  delivered sid (e1 ++ e2) = delivered sid e1 ++ delivered sid e2.
Proof. apply flat_map_app. Qed.

Lemma delivered_entry (sid k : string) (g : GdbController) :
  delivered sid (entry_events (k, Some g))
  = if String.eqb k sid then records_of (snd (controller_poll g)) else [].
Proof.
  unfold entry_events. destruct (snd (controller_poll g)) as [[|r rs]|e]; simpl.
  - now destruct (String.eqb k sid).
  - rewrite app_nil_r. reflexivity.
  - now destruct (String.eqb k sid).
Qed.

Lemma delivered_other (sid : string) (d : dict) :
  ~ In sid (map fst d) -> delivered sid (flat_map entry_events d) = [].
Proof.
  induction d as [|[k v] d IH]; cbn [flat_map map fst In]; intros Hn;
    [reflexivity|].
  rewrite delivered_app, IH by tauto. rewrite app_nil_r.
  destruct v as [g|]; [|reflexivity].
  rewrite delivered_entry.
  destruct (String.eqb_spec k sid); [subst; tauto|reflexivity].
Qed.

Lemma delivered_tick (sid : string) (d : dict) (g : GdbController) :
  NoDup (map fst d) ->
  dict_get sid d = Some (Some g) ->
  delivered sid (flat_map entry_events d) = records_of (snd (controller_poll g)).
Proof.
  induction d as [|[k v] d IH]; cbn [flat_map map fst dict_get];
    intros Hnd Hg; [discriminate|].
  inversion Hnd as [|? ? Hk Hd]; subst.
  rewrite delivered_app.
  destruct (String.eqb_spec sid k) as [->|Hne].
  - inversion Hg; subst. rewrite delivered_entry, String.eqb_refl.
    rewrite delivered_other by exact Hk. apply app_nil_r.
  - rewrite IH by assumption.
    destruct v as [g0|]; [|reflexivity].
    rewrite delivered_entry.
    destruct (String.eqb_spec k sid); [subst; tauto|reflexivity].
Qed.

Lemma poll_entry_keys (d : dict) : map fst (map poll_entry d) = map fst d.
Proof.
  induction d as [|[k [g|]] d IH]; simpl; congruence.
Qed.

Lemma poll_entry_get (sid : string) (d : dict) (g : GdbController) :
  dict_get sid d = Some (Some g) ->
  dict_get sid (map poll_entry d) = Some (Some (fst (controller_poll g))).
Proof.
  induction d as [|[k v] d IH]; simpl; [discriminate|].
  destruct v as [g0|]; simpl; destruct (String.eqb sid k); auto; congruence.
Qed.

Lemma poll_entry_safe (env : module_env) (d : dict) :
  forallb (entry_safe env) d = true ->
  forallb (entry_safe env) (map poll_entry d) = true.
Proof.
  induction d as [|[k v] d IH]; simpl; [reflexivity|].
  intros H. apply andb_true_iff in H. destruct H as [Hkv Hd].
  rewrite IH by assumption. rewrite andb_true_r.
  destruct v as [g|]; [|discriminate].
  unfold entry_safe in *. simpl in *. unfold controller_poll.
  destruct (poll_script g) as [|o script] eqn:Hs; simpl.
  - now rewrite Hs.
  - destruct (debug env); simpl in *; [|reflexivity].
    apply andb_true_iff in Hkv. tauto.
Qed.

Lemma records_of_firstn (n : nat) (g : GdbController) :
  flat_map records_of (firstn (S n) (poll_script g))
  = records_of (snd (controller_poll g))
    ++ flat_map records_of (firstn n (poll_script (fst (controller_poll g)))).
Proof.
  unfold controller_poll. destruct (poll_script g) as [|o script] eqn:Hs.
  - simpl. rewrite Hs. now rewrite firstn_nil.
  - reflexivity.
Qed.

(** C3, as amended.  On a dict with unique keys and safe entries, with the
    reader running and no handler in between: one tick emits, for every
    session in turn, the whole non-empty list of records its poll returned
    as a single [gdb_response] event (nothing for an empty list); and after
    [n] ticks the records delivered to a client, in order, are its earlier
    ones followed by the records of the first [n] polls of its process, in
    the order the process gave them. *)
Theorem responses_batched_in_order (env : module_env) (n : nat) :
  forall (s : state) (sid : string) (g : GdbController),
    gdb_reader_thread s = Some Running ->
    NoDup (map fst (gdb_controllers s)) ->
    forallb (entry_safe env) (gdb_controllers s) = true ->
    dict_get sid (gdb_controllers s) = Some (Some g) ->
    emitted (run env [Tick []] s)
    = emitted s ++ flat_map entry_events (gdb_controllers s) /\
    delivered sid (emitted (run env (repeat (Tick []) n) s))
    = delivered sid (emitted s)
      ++ flat_map records_of (firstn n (poll_script g)).
Proof.
  induction n as [|n IH]; intros s sid g Hrun Hnd Hsafe Hg;
    destruct (@tick_quiet env s Hsafe) as (s1 & Ht & Hd1 & He1 & Hg1);
    (split; [simpl; now rewrite Hrun, Ht|]).
  - simpl. now rewrite app_nil_r.
  - change (repeat (Tick []) (S n)) with (Tick [] :: repeat (Tick []) n).
    unfold run. cbn [fold_left sys_step]. rewrite Hrun, Ht.
    fold (run env (repeat (Tick []) n) s1).
    destruct (IH s1 sid (fst (controller_poll g))) as [_ IH'].
    + destruct Hg1 as (_ & _ & Hth & _). congruence.
    + now rewrite Hd1, poll_entry_keys.
    + rewrite Hd1. now apply poll_entry_safe.
    + rewrite Hd1. now apply poll_entry_get.
    + rewrite IH', He1, delivered_app, (@delivered_tick sid _ g Hnd Hg).
      rewrite records_of_firstn. now rewrite app_assoc.
Qed.

Lemma responses_batched_in_order_witness :
  let env := import_module "Linux-5.4.0-x86_64-with-glibc2.29" false "gdb" false in
  let g := healthy 100 [PollRecords ["r1"; "r2"]; PollRecords ["r3"]]%string in
  let s := one_session g in
  emitted (run env [Tick []] s)
  = emitted s ++ flat_map entry_events (gdb_controllers s) /\
  delivered "tabA" (emitted (run env (repeat (Tick []) 2) s))
  = delivered "tabA" (emitted s)
    ++ flat_map records_of (firstn 2 (poll_script g)).
Proof.
  apply (@responses_batched_in_order
           (import_module "Linux-5.4.0-x86_64-with-glibc2.29" false "gdb" false)
           2
           (one_session
              (healthy 100 [PollRecords ["r1"; "r2"]; PollRecords ["r3"]]%string))
           "tabA"%string
           (healthy 100 [PollRecords ["r1"; "r2"]; PollRecords ["r3"]]%string)).
  - reflexivity.
  - simpl. constructor; [intros []|constructor].
  - reflexivity.
  - reflexivity.
Defined.

(** The claim as written fails: a poll that returns two records gives
    one event that carries both, not one event per record. *)
Lemma responses_batched_in_order_counterexample :
  let env := import_module "Linux-5.4.0-x86_64-with-glibc2.29" false "gdb" false in
  let s := one_session (healthy 100 [PollRecords ["r1"; "r2"]]%string) in
  let s' := run env [Tick []] s in
  emitted s' = [("tabA", gdb_response ["r1"; "r2"])]%string /\
  List.length (emitted s') <> List.length (delivered "tabA" (emitted s')).
Proof. split; [reflexivity|]. simpl. discriminate. Qed.

(** *** The iteration over the live dict *)

(** Whatever the position, an iterator that finds the dict with another
    size than at its creation raises, and the exception leaves the loop. *)
Lemma for_items_size_changed (env : module_env) (fuel pos size0 : nat)
    (sched : list (option hevent)) (s : state) :
  List.length (gdb_controllers s) <> size0 ->
  for_items env (S fuel) pos size0 sched s = (s, Raise changed_size).
Proof.
  intros H. simpl. apply Nat.eqb_neq in H. now rewrite H.
Qed.

(** The fuel [tick] gives is enough: with the dict at its original size,
    more fuel changes nothing. *)
Lemma for_items_fuel (env : module_env) (fuel : nat) :
  forall (extra pos size0 : nat) (sched : list (option hevent)) (s : state),
    size0 < pos + S fuel ->
    for_items env (S fuel + extra) pos size0 sched s
    = for_items env (S fuel) pos size0 sched s.
Proof.
  induction fuel as [|fuel IH]; intros extra pos size0 sched s Hlt;
    cbn [for_items Nat.add];
    destruct (List.length (gdb_controllers s) =? size0)%nat eqn:E;
    cbn [negb]; try reflexivity.
  - apply Nat.eqb_eq in E.
    assert (Hn : nth_error (gdb_controllers s) pos = None)
      by (apply nth_error_None; lia).
    now rewrite Hn.
  - destruct (nth_error (gdb_controllers s) pos) as [[k v]|]; [|reflexivity].
    destruct (reader_body env pos k v s) as [s1 [[|]|e]]; try reflexivity.
    apply (IH extra (S pos)). lia.
Qed.

(** A handler that runs during the first pass and leaves the dict with
    another number of sessions ends the tick with [RuntimeError]. *)
Lemma tick_interference_raises (env : module_env) (s : state) (k : string)
    (g : GdbController) (rest : dict) (h : hevent)
    (sched : list (option hevent)) :
  gdb_controllers s = (k, Some g) :: rest ->
  entry_safe env (k, Some g) = true ->
  List.length (gdb_controllers
                 (deliver env (Some h) (fst (reader_body env 0 k (Some g) s))))
    <> List.length (gdb_controllers s) ->
  snd (tick env (Some h :: sched) s) = Raise changed_size.
Proof.
  intros Hd Hsafe Hlen.
  destruct (@reader_body_safe env [] rest k g s Hd Hsafe) as (s1 & Hb & _).
  simpl in Hb. rewrite Hb in Hlen. cbn [fst] in Hlen.
  assert (Hnth : nth_error (gdb_controllers s) 0 = Some (k, Some g))
    by now rewrite Hd.
  unfold tick. cbn [for_items]. rewrite Nat.eqb_refl, Hnth, Hb.
  cbn [negb hd tl]. rewrite Hd. cbn [List.length].
  rewrite for_items_size_changed; [reflexivity|].
  rewrite Hd in Hlen. exact Hlen.
Qed.




(** ** The start of the reader *)

Lemma guard_kept_refl (s : state) : guard_kept s s.
Proof. split; auto. Qed.

Lemma guard_kept_trans (s1 s2 s3 : state) :
  guard_kept s1 s2 -> guard_kept s2 s3 -> guard_kept s1 s3.
Proof. unfold guard_kept. tauto. Qed.

Lemma guard_kept_same_globals (s s' : state) :
  same_globals s s' -> guard_kept s s'.
Proof.
  unfold same_globals, guard_kept, guard_inv. intros (_ & _ & Ht & _ & Hs).
  rewrite Ht, Hs. auto.
Qed.

Lemma connect_session_globals (env : module_env) (sid : string)
    (spawn : spawner) (s : state) :
  let s' := fst (connect_session env sid spawn s) in
  gdb_reader_thread s' = gdb_reader_thread s /\ started s' = started s.
Proof.
  destruct (dict_mem sid (gdb_controllers s)) eqn:Hmem.
  - rewrite (connect_session_known env sid spawn s Hmem). simpl.
    now autorewrite with frame.
  - destruct (connect_session_new env sid spawn s Hmem)
      as (s1 & r & E & _ & Hs & Ht & _).
    rewrite E. simpl. auto.
Qed.

Lemma connect_tail_kept (env : module_env) (sid : string) (s : state) :
  guard_kept s (fst ((connect_emit_pid sid ;; t <- connect_guard_call ;;
                      connect_guard_store env t) s)).
Proof.
  destruct (dict_get sid (gdb_controllers s)) as [[g|]|] eqn:Hg.
  - destruct (@connect_tail env sid s g Hg)
      as (s' & E & _ & _ & _ & _ & _ & Ht & Hs).
    rewrite E. simpl. unfold guard_kept, guard_inv. rewrite Ht, Hs.
    split; [|discriminate].
    destruct (gdb_reader_thread s); lia.
  - destruct (@connect_tail_raises env sid s) as (e & E).
    { rewrite Hg. congruence. }
    rewrite E. apply guard_kept_refl.
  - destruct (@connect_tail_raises env sid s) as (e & E).
    { rewrite Hg. congruence. }
    rewrite E. apply guard_kept_refl.
Qed.

Lemma client_connected_kept (env : module_env) (sid : string) (spawn : spawner)
    (s : state) :
  guard_kept s (fst (client_connected env sid spawn s)).
Proof.
  rewrite client_connected_eq.
  pose proof (connect_session_globals env sid spawn s) as [Ht Hs].
  destruct (connect_session env sid spawn s) as [s1 [[]|e]]; simpl in Ht, Hs.
  - apply guard_kept_trans with s1; [|apply connect_tail_kept].
    unfold guard_kept, guard_inv. rewrite Ht, Hs. auto.
  - simpl. unfold guard_kept, guard_inv. rewrite Ht, Hs. auto.
Qed.

Ltac solve_globals :=
  solve [unfold same_globals; simpl; autorewrite with frame; repeat split].

Lemma run_gdb_command_globals (sid : string) (message : option cmd)
    (s : state) :
  same_globals s (fst (run_gdb_command sid message s)).
Proof.
  unfold run_gdb_command. unfold_py.
  destruct (dict_get sid (gdb_controllers s)) as [[g|]|]; try solve_globals.
  destruct message as [c|]; [|solve_globals].
  unfold controller_write. destruct (write_fault g); solve_globals.
Qed.

Lemma client_disconnected_globals (env : module_env) (sid : string)
    (s : state) :
  same_globals s (fst (client_disconnected env sid s)).
Proof.
  unfold client_disconnected. unfold_py. rewrite dbprint_str.
  rewrite print_line_controllers.
  destruct (dict_mem sid (gdb_controllers s)); [|solve_globals].
  destruct (dict_get sid (gdb_controllers s)) as [[g|]|]; try solve_globals.
  rewrite dbprint_str. unfold controller_exit.
  destruct (exit_fault g); solve_globals.
Qed.

Lemma deliver_kept (env : module_env) (h : option hevent) (s : state) :
  guard_kept s (deliver env h s).
Proof.
  destruct h as [[sid spawn|sid message|sid]|]; simpl.
  - apply client_connected_kept.
  - apply guard_kept_same_globals, run_gdb_command_globals.
  - apply guard_kept_same_globals, client_disconnected_globals.
  - apply guard_kept_refl.
Qed.

Lemma reader_body_globals (env : module_env) (pos : nat) (k : string)
    (v : option GdbController) (s : state) :
  same_globals s (fst (reader_body env pos k v s)).
Proof.
  unfold reader_body. unfold_py. destruct v as [g|].
  - destruct (controller_poll g) as [g' [[|r rs]|e]]; simpl.
    + solve_globals.
    + rewrite dbprint_str. solve_globals.
    + unfold dbprint. destruct (debug env); solve_globals.
  - rewrite dbprint_str. solve_globals.
Qed.

Lemma for_items_kept (env : module_env) (fuel : nat) :
  forall (pos size0 : nat) (sched : list (option hevent)) (s : state),
    guard_kept s (fst (for_items env fuel pos size0 sched s)).
Proof.
  induction fuel as [|fuel IH]; intros pos size0 sched s;
    cbn [for_items]; [apply guard_kept_refl|].
  destruct (negb (List.length (gdb_controllers s) =? size0)%nat);
    [apply guard_kept_refl|].
  destruct (nth_error (gdb_controllers s) pos) as [[k v]|];
    [|apply guard_kept_refl].
  pose proof (reader_body_globals env pos k v s) as Hb.
  destruct (reader_body env pos k v s) as [s1 [[|]|e]]; simpl in Hb.
  - apply guard_kept_trans with s1; [now apply guard_kept_same_globals|].
    eapply guard_kept_trans; [apply deliver_kept|apply IH].
  - now apply guard_kept_same_globals.
  - now apply guard_kept_same_globals.
Qed.

Lemma sys_step_inv (env : module_env) (ev : sys_event) (s : state) :
  guard_inv s -> guard_inv (sys_step env ev s).
Proof.
  intros Hinv. destruct ev as [h|sched]; simpl.
  - now apply (deliver_kept env (Some h)).
  - destruct (gdb_reader_thread s) as [[|e0]|] eqn:Ht; try exact Hinv.
    pose proof (for_items_kept env (S (List.length (gdb_controllers s))) 0
                  (List.length (gdb_controllers s)) sched s) as [H1 H2].
    unfold tick.
    destruct (for_items env (S (List.length (gdb_controllers s))) 0
                (List.length (gdb_controllers s)) sched s) as [s' [[]|e]];
      simpl in H1, H2; [now apply H1|].
    specialize (H1 Hinv). rewrite Ht in H2.
    unfold guard_inv in *. simpl.
    destruct (gdb_reader_thread s'); [exact H1|].
    now elim H2.
Qed.

Lemma run_inv (env : module_env) (evs : list sys_event) :
  forall s, guard_inv s -> guard_inv (run env evs s).
Proof.
  induction evs as [|ev evs IH]; intros s Hinv; simpl; [exact Hinv|].
  apply IH. now apply sys_step_inv.
Qed.

(** C4, as amended.  When handlers run one at a time (each connect
    handler runs from its first line to its last before the next handler
    starts; handlers may still run between two passes of a reader tick),
    [socketio.start_background_task] is called at most once, whatever the
    events: the count is one exactly when a reader task is recorded. *)
Theorem reader_started_at_most_once (env : module_env)
    (evs : list sys_event) :
  let s := run env evs initial_state in
  started s <= 1 /\
  (started s = 1 <-> gdb_reader_thread s <> None).
Proof.
  assert (H : guard_inv (run env evs initial_state))
    by (apply run_inv; reflexivity).
  unfold guard_inv in H. cbv zeta.
  destruct (gdb_reader_thread (run env evs initial_state)) as [t|];
    rewrite H; split; try lia; split; congruence.
Qed.

(** A task that runs alone is the handler. *)
Lemma task_alone_is_client_connected (env : module_env) (sid : string)
    (spawn : spawner) (s : state) :
  exists n,
    run_tasks env (repeat 0 n) [mkTask sid spawn AtSession] s
    = (fst (client_connected env sid spawn s),
       [mkTask sid spawn (Finished (snd (client_connected env sid spawn s)))]).
Proof.
  exists 4. unfold client_connected. unfold_py. simpl.
  unfold step_task, step_pc, advance. simpl.
  destruct (connect_session env sid spawn s) as [s1 [[]|e]]; simpl;
    [|reflexivity].
  destruct (connect_emit_pid sid s1) as [s2 [[]|e]]; simpl; [|reflexivity].
  destruct (connect_guard_call s2) as [s3 [t|e]]; simpl; [|reflexivity].
  destruct (connect_guard_store env t s3) as [s4 [[]|e]]; reflexivity.
Qed.

(** The claim as written fails: two first connects whose handlers are
    both past the test of line 147 before either has stored the task of
    line 148 start two readers. *)
Lemma reader_started_at_most_once_counterexample :
  let env := import_module "Linux-5.4.0-x86_64-with-glibc2.29" false "gdb" false in
  let pool := [mkTask "tabA" (fun _ _ => Done (healthy 100 [])) AtSession;
               mkTask "tabB" (fun _ _ => Done (healthy 200 [])) AtSession] in
  let s := fst (run_tasks env [0; 0; 0; 1; 1; 1; 0; 1] pool initial_state) in
  started s = 2 /\ ~ started s <= 1.
Proof. split; [reflexivity|]. simpl. lia. Qed.

(** ** The dicts the server can reach *)

Lemma dict_set_keys (k : string) (v : option GdbController) (d : dict) :
  map fst (dict_set k v d)
  = if dict_mem k d then map fst d else map fst d ++ [k].
Proof.
  unfold dict_mem. induction d as [|[k' v'] d IH]; simpl; [reflexivity|].
  destruct (String.eqb k k'); simpl; [reflexivity|].
  rewrite IH. now destruct (dict_get k d).
Qed.

Lemma dict_mem_in_keys (k : string) (d : dict) :
  dict_mem k d = true <-> In k (map fst d).
Proof.
  unfold dict_mem. split.
  - destruct (dict_get k d) eqn:E; [|discriminate].
    intros _. eapply dict_get_in_keys; eauto.
  - intros H. destruct (dict_get k d) eqn:E; [reflexivity|].
    exfalso. revert H E. induction d as [|[k' v'] d IH]; simpl; [tauto|].
    destruct (String.eqb_spec k k'); [discriminate|].
    intros [->|H]; [congruence|auto].
Qed.

Lemma wf_dict_set (k : string) (g : GdbController) (d : dict) :
  wf_dict d -> wf_dict (dict_set k (Some g) d).
Proof.
  intros [Hnd Hall]. split.
  - rewrite dict_set_keys. destruct (dict_mem k d) eqn:E; [exact Hnd|].
    apply NoDup_app; [exact Hnd|repeat constructor; intros []|].
    intros x Hx [<-|[]].
    apply dict_mem_in_keys in Hx. congruence.
  - clear Hnd. induction d as [|[k' v'] d IH]; simpl.
    + repeat constructor. discriminate.
    + inversion Hall; subst.
      destruct (String.eqb k k'); constructor; auto. discriminate.
Qed.

Lemma wf_dict_pop (k : string) (d : dict) : wf_dict d -> wf_dict (dict_pop k d).
Proof.
  intros [Hnd Hall]. induction d as [|[k' v'] d IH]; simpl; [now split|].
  simpl in Hnd. inversion Hnd as [|? ? Hk Hd]; subst.
  inversion Hall as [|? ? Hv Hr]; subst.
  destruct (String.eqb k k'); [now split|].
  destruct (IH Hd Hr) as [IH1 IH2]. split.
  - simpl. constructor; [|exact IH1].
    intros Hin. apply Hk. clear - Hin.
    induction d as [|[k2 v2] d IHd]; simpl in *; [tauto|].
    destruct (String.eqb k k2); simpl in *; tauto.
  - constructor; assumption.
Qed.

Lemma wf_dict_update_at (i : nat) (g : GdbController) (d : dict) :
  wf_dict d -> wf_dict (dict_update_at i (Some g) d).
Proof.
  intros [Hnd Hall].
  assert (Hk : forall j, map fst (dict_update_at j (Some g) d) = map fst d).
  { induction d as [|[k v] d IH]; intros [|j]; simpl; auto.
    inversion Hnd; inversion Hall; subst. now rewrite IH. }
  split; [now rewrite Hk|]. clear Hnd Hk.
  revert i. induction d as [|[k v] d IH]; intros [|i]; simpl;
    try constructor; inversion Hall; subst; auto. discriminate.
Qed.

Lemma client_connected_controllers (env : module_env) (sid : string)
    (spawn : spawner) (s : state) :
  let d' := gdb_controllers (fst (client_connected env sid spawn s)) in
  d' = gdb_controllers s \/
  exists g, d' = dict_set sid (Some g) (gdb_controllers s).
Proof.
  rewrite client_connected_eq.
  assert (Hs : let d1 := gdb_controllers (fst (connect_session env sid spawn s)) in
               d1 = gdb_controllers s \/
               exists g, d1 = dict_set sid (Some g) (gdb_controllers s)).
  { destruct (dict_mem sid (gdb_controllers s)) eqn:Hmem.
    - rewrite (connect_session_known env sid spawn s Hmem). simpl.
      left. apply print_line_controllers.
    - destruct (connect_session_new env sid spawn s Hmem)
        as (s1 & r & E & _ & _ & _ & Hr).
      rewrite E. simpl. destruct r; [right|left]; exact Hr. }
  destruct (connect_session env sid spawn s) as [s1 [[]|e]]; simpl in Hs;
    [|exact Hs].
  assert (Ht : gdb_controllers
                 (fst ((connect_emit_pid sid ;; t <- connect_guard_call ;;
                        connect_guard_store env t) s1))
               = gdb_controllers s1).
  { destruct (dict_get sid (gdb_controllers s1)) as [[g|]|] eqn:Hg.
    - destruct (@connect_tail env sid s1 g Hg) as (s' & E & _ & Hc & _).
      now rewrite E.
    - destruct (@connect_tail_raises env sid s1) as (e & E);
        [rewrite Hg; congruence|now rewrite E].
    - destruct (@connect_tail_raises env sid s1) as (e & E);
        [rewrite Hg; congruence|now rewrite E]. }
  cbv zeta. rewrite Ht. exact Hs.
Qed.

Lemma deliver_wf (env : module_env) (h : option hevent) (s : state) :
  wf_dict (gdb_controllers s) -> wf_dict (gdb_controllers (deliver env h s)).
Proof.
  intros Hwf. destruct h as [[sid spawn|sid message|sid]|]; simpl;
    [| | |exact Hwf].
  - destruct (client_connected_controllers env sid spawn s) as [E|[g E]];
      rewrite E; [exact Hwf|now apply wf_dict_set].
  - unfold run_gdb_command. unfold_py.
    destruct (dict_get sid (gdb_controllers s)) as [[g|]|]; try exact Hwf.
    destruct message as [c|]; [|exact Hwf].
    unfold controller_write. destruct (write_fault g); [exact Hwf|].
    simpl. now apply wf_dict_set.
  - unfold client_disconnected. unfold_py. rewrite dbprint_str.
    rewrite print_line_controllers.
    destruct (dict_mem sid (gdb_controllers s));
      [|simpl; now rewrite print_line_controllers].
    destruct (dict_get sid (gdb_controllers s)) as [[g|]|];
      try (simpl; now rewrite print_line_controllers).
    rewrite dbprint_str. unfold controller_exit.
    destruct (exit_fault g); simpl; autorewrite with frame;
      [exact Hwf|now apply wf_dict_pop].
Qed.

Lemma reader_body_wf (env : module_env) (pos : nat) (k : string)
    (v : option GdbController) (s : state) :
  wf_dict (gdb_controllers s) ->
  wf_dict (gdb_controllers (fst (reader_body env pos k v s))).
Proof.
  intros Hwf. unfold reader_body. unfold_py. destruct v as [g|].
  - destruct (controller_poll g) as [g' [[|r rs]|e]]; simpl.
    + now apply wf_dict_update_at.
    + rewrite dbprint_str. simpl. autorewrite with frame. simpl.
      now apply wf_dict_update_at.
    + unfold dbprint. destruct (debug env); simpl;
        now apply wf_dict_update_at.
  - rewrite dbprint_str. simpl. now autorewrite with frame.
Qed.

Lemma for_items_wf (env : module_env) (fuel : nat) :
  forall (pos size0 : nat) (sched : list (option hevent)) (s : state),
    wf_dict (gdb_controllers s) ->
    wf_dict (gdb_controllers (fst (for_items env fuel pos size0 sched s))).
Proof.
  induction fuel as [|fuel IH]; intros pos size0 sched s Hwf;
    cbn [for_items]; [exact Hwf|].
  destruct (negb (List.length (gdb_controllers s) =? size0)%nat);
    [exact Hwf|].
  destruct (nth_error (gdb_controllers s) pos) as [[k v]|]; [|exact Hwf].
  pose proof (@reader_body_wf env pos k v s Hwf) as Hb.
  destruct (reader_body env pos k v s) as [s1 [[|]|e]]; simpl in Hb;
    try exact Hb.
  apply IH. now apply deliver_wf.
Qed.

(** Whatever the events, the session table has unique keys and holds
    controllers only: the [None] branch of the reader (lines 203-206) is
    never taken. *)
Lemma run_wf (env : module_env) (evs : list sys_event) :
  forall s, wf_dict (gdb_controllers s) ->
            wf_dict (gdb_controllers (run env evs s)).
Proof.
  induction evs as [|ev evs IH]; intros s Hwf; simpl; [exact Hwf|].
  apply IH. destruct ev as [h|sched]; simpl.
  - now apply (deliver_wf env (Some h)).
  - destruct (gdb_reader_thread s) as [[|e0]|]; try exact Hwf.
    pose proof (@for_items_wf env (S (List.length (gdb_controllers s))) 0
                  (List.length (gdb_controllers s)) sched s Hwf) as H.
    unfold tick.
    destruct (for_items env (S (List.length (gdb_controllers s))) 0
                (List.length (gdb_controllers s)) sched s) as [s' [[]|e]];
      exact H.
Qed.

Lemma reachable_wf (env : module_env) (evs : list sys_event) :
  wf_dict (gdb_controllers (run env evs initial_state)).
Proof. apply run_wf. split; constructor. Qed.

(** Outside debug mode every reachable table is made of safe entries:
    a tick with no handler in between always returns. *)
Lemma reachable_safe (env : module_env) (evs : list sys_event) :
  debug env = false ->
  forallb (entry_safe env)
          (gdb_controllers (run env evs initial_state)) = true.
Proof.
  intros Hdbg. destruct (reachable_wf env evs) as [_ Hall].
  apply forallb_forall. intros [k v] Hin.
  rewrite Forall_forall in Hall. specialize (Hall _ Hin).
  unfold entry_safe. simpl in *. rewrite Hdbg.
  now destruct v.
Qed.

(** * Further properties of the module *)

(** ** More on the dict *)

Lemma dict_get_set_other (k k' : string) (v : option GdbController) (d : dict) :
  k' <> k -> dict_get k' (dict_set k v d) = dict_get k' d.
Proof.
  intros Hne. induction d as [|[k0 v0] d IH]; simpl.
  - destruct (String.eqb_spec k' k); [contradiction|reflexivity].
  - destruct (String.eqb_spec k k0) as [->|Hk]; simpl.
    + destruct (String.eqb_spec k' k0); [contradiction|reflexivity].
    + destruct (String.eqb k' k0); [reflexivity|exact IH].
Qed.

Lemma dict_get_pop_other (k k' : string) (d : dict) :
  k' <> k -> dict_get k' (dict_pop k d) = dict_get k' d.
Proof.
  intros Hne. induction d as [|[k0 v0] d IH]; simpl; [reflexivity|].
  destruct (String.eqb_spec k k0) as [->|Hk]; simpl.
  - destruct (String.eqb_spec k' k0); [contradiction|reflexivity].
  - destruct (String.eqb k' k0); [reflexivity|exact IH].
Qed.

Lemma dict_set_new (k : string) (v : option GdbController) (d : dict) :
  dict_mem k d = false -> dict_set k v d = d ++ [(k, v)].
Proof.
  unfold dict_mem. induction d as [|[k0 v0] d IH]; simpl; [reflexivity|].
  destruct (String.eqb k k0); [discriminate|].
  intros H. now rewrite IH.
Qed.

Lemma dict_pop_set_new (k : string) (v : option GdbController) (d : dict) :
  dict_mem k d = false -> dict_pop k (dict_set k v d) = d.
Proof.
  unfold dict_mem. induction d as [|[k0 v0] d IH]; simpl.
  - now rewrite String.eqb_refl.
  - destruct (String.eqb k k0) eqn:E; [discriminate|].
    intros H. simpl. rewrite E. now rewrite IH.
Qed.

(** ** What a handler does to the table and to the events *)

(** The dict after a handler: as it was, or with the requester's entry
    set, or with the requester's entry popped. *)
Lemma deliver_controllers (env : module_env) (h : hevent) (s : state) :
  let d := gdb_controllers s in
  let d' := gdb_controllers (deliver env (Some h) s) in
  d' = d \/
  (exists g, d' = dict_set (hevent_sid h) (Some g) d) \/
  d' = dict_pop (hevent_sid h) d.
Proof.
  destruct h as [sid spawn|sid message|sid]; simpl.
  - destruct (client_connected_controllers env sid spawn s) as [E|[g E]];
      [left|right; left; exists g]; exact E.
  - unfold run_gdb_command. unfold_py.
    destruct (dict_get sid (gdb_controllers s)) as [[g|]|]; try now left.
    destruct message as [c|]; [|now left].
    unfold controller_write. destruct (write_fault g); [now left|].
    right. left. eexists. reflexivity.
  - unfold client_disconnected. unfold_py. rewrite dbprint_str.
    rewrite print_line_controllers.
    destruct (dict_mem sid (gdb_controllers s));
      [|left; simpl; now rewrite print_line_controllers].
    destruct (dict_get sid (gdb_controllers s)) as [[g|]|];
      try (left; simpl; now rewrite print_line_controllers).
    rewrite dbprint_str. unfold controller_exit.
    destruct (exit_fault g); simpl; autorewrite with frame; auto.
Qed.

(** X1.  A handler touches the session of the client it runs for and no
    other: whatever the event and whatever its outcome, the entry of every
    other client is the same after the handler as before. *)
Theorem handler_leaves_other_sessions (env : module_env) (h : hevent)
    (s : state) (other : string) :
  other <> hevent_sid h ->
  dict_get other (gdb_controllers (deliver env (Some h) s))
  = dict_get other (gdb_controllers s).
Proof.
  intros Hne.
  destruct (deliver_controllers env h s) as [E|[[g E]|E]]; rewrite E.
  - reflexivity.
  - now apply dict_get_set_other.
  - now apply dict_get_pop_other.
Qed.

Lemma handler_leaves_other_sessions_witness :
  let env := import_module "Linux-5.4.0-x86_64-with-glibc2.29" false "gdb" false in
  let s := run env (two_clients (healthy 100 []) (healthy 200 [])) initial_state in
  dict_get "tabA" (gdb_controllers (deliver env (Some (Disconnect "tabB")) s))
  = dict_get "tabA" (gdb_controllers s).
Proof.
  apply (@handler_leaves_other_sessions
           (import_module "Linux-5.4.0-x86_64-with-glibc2.29" false "gdb" false)
           (Disconnect "tabB")
           (run (import_module "Linux-5.4.0-x86_64-with-glibc2.29" false "gdb" false)
                (two_clients (healthy 100 []) (healthy 200 [])) initial_state)
           "tabA"%string).
  discriminate.
Defined.

Lemma connect_session_emitted (env : module_env) (sid : string)
    (spawn : spawner) (s : state) :
  emitted (fst (connect_session env sid spawn s)) = emitted s.
Proof.
  destruct (dict_mem sid (gdb_controllers s)) eqn:Hmem.
  - rewrite (connect_session_known env sid spawn s Hmem). simpl.
    apply print_line_emitted.
  - destruct (connect_session_new env sid spawn s Hmem)
      as (s1 & r & E & He & _).
    now rewrite E.
Qed.

(** X2.  A handler emits at most one event, and only to the client it
    runs for: the reader apart, nothing is ever sent to a client because of
    what another client did. *)
Theorem handler_emits_to_requester (env : module_env) (h : hevent) (s : state) :
  exists evs,
    emitted (deliver env (Some h) s) = emitted s ++ evs /\
    List.length evs <= 1 /\
    Forall (fun ev : event => fst ev = hevent_sid h) evs.
Proof.
  destruct h as [sid spawn|sid message|sid]; simpl.
  - rewrite client_connected_eq.
    pose proof (connect_session_emitted env sid spawn s) as He.
    destruct (connect_session env sid spawn s) as [s1 [[]|e]]; simpl in He.
    + destruct (dict_get sid (gdb_controllers s1)) as [[g|]|] eqn:Hg.
      * destruct (@connect_tail env sid s1 g Hg) as (s' & E & H1 & _).
        rewrite E. simpl. exists [(sid, gdb_pid (pid g))].
        rewrite H1, He. repeat split; auto.
      * destruct (@connect_tail_raises env sid s1) as (e & E);
          [rewrite Hg; congruence|].
        rewrite E. simpl. exists []. rewrite app_nil_r. auto.
      * destruct (@connect_tail_raises env sid s1) as (e & E);
          [rewrite Hg; congruence|].
        rewrite E. simpl. exists []. rewrite app_nil_r. auto.
    + simpl. exists []. rewrite app_nil_r. auto.
  - unfold run_gdb_command. unfold_py.
    destruct (dict_get sid (gdb_controllers s)) as [[g|]|];
      try (eexists [_]; simpl; repeat split; auto; fail).
    destruct message as [c|];
      [|eexists [_]; simpl; repeat split; auto].
    unfold controller_write. destruct (write_fault g);
      [eexists [_]; simpl; repeat split; auto|].
    exists []. simpl. rewrite app_nil_r. auto.
  - exists []. rewrite app_nil_r.
    split; [|auto].
    unfold client_disconnected. unfold_py. rewrite dbprint_str.
    rewrite print_line_controllers.
    destruct (dict_mem sid (gdb_controllers s));
      [|simpl; now autorewrite with frame].
    destruct (dict_get sid (gdb_controllers s)) as [[g|]|];
      try (simpl; now autorewrite with frame).
    rewrite dbprint_str. unfold controller_exit.
    destruct (exit_fault g); simpl; now autorewrite with frame.
Qed.

(** ** Commands for a client with a session *)

Lemma run_command_written (sid : string) (c : cmd) (s : state)
    (g : GdbController) :
  dict_get sid (gdb_controllers s) = Some (Some g) ->
  write_fault g = None ->
  run_gdb_command sid (Some c) s
  = (set_controllers
       (dict_set sid (Some (with_written g (written g ++ [c])))
                 (gdb_controllers s)) s,
     Done tt).
Proof.
  intros Hg Hw. unfold run_gdb_command, controller_write, with_written.
  unfold_py. rewrite Hg. destruct (write_fault g); [discriminate|reflexivity].
Qed.

(** X3.  Commands reach gdb in the order the client sent them: after a
    run of commands for a client whose [write] does not fail, what was
    written to its controller is what was written before followed by the
    commands, in order; nothing was emitted, and the table has the same
    clients in the same order. *)
Theorem commands_written_in_order (env : module_env) (sid : string)
    (cs : list cmd) :
  forall (s : state) (g : GdbController),
    dict_get sid (gdb_controllers s) = Some (Some g) ->
    write_fault g = None ->
    let s' := run env (map (fun c => Handler (RunCommand sid (Some c))) cs) s in
    dict_get sid (gdb_controllers s')
    = Some (Some (with_written g (written g ++ cs))) /\
    emitted s' = emitted s /\
    map fst (gdb_controllers s') = map fst (gdb_controllers s).
Proof.
  induction cs as [|c cs IH]; intros s g Hg Hw; cbn [map run fold_left].
  - rewrite app_nil_r. destruct g. auto.
  - fold (run env (map (fun c => Handler (RunCommand sid (Some c))) cs)).
    cbn [sys_step deliver handle].
    rewrite (@run_command_written sid c s g Hg Hw). cbn [fst].
    set (g1 := with_written g (written g ++ [c])).
    set (s1 := set_controllers _ s).
    destruct (IH s1 g1) as (H1 & H2 & H3).
    + apply dict_get_set_same.
    + exact Hw.
    + unfold run in H1, H2, H3. rewrite H1, H2, H3.
      unfold s1, g1, with_written. simpl.
      rewrite <- app_assoc. repeat split.
      rewrite dict_set_keys. unfold dict_mem. now rewrite Hg.
Qed.

Lemma commands_written_in_order_witness :
  let env := import_module "Linux-5.4.0-x86_64-with-glibc2.29" false "gdb" false in
  let g := healthy 100 [] in
  let s := one_session g in
  let cs := [CmdStr "-break-insert main"; CmdList ["-exec-run"; "-exec-next"]]%string in
  let s' := run env (map (fun c => Handler (RunCommand "tabA" (Some c))) cs) s in
  dict_get "tabA" (gdb_controllers s')
  = Some (Some (with_written g (written g ++ cs))) /\
  emitted s' = emitted s /\
  map fst (gdb_controllers s') = map fst (gdb_controllers s).
Proof.
  apply (@commands_written_in_order
           (import_module "Linux-5.4.0-x86_64-with-glibc2.29" false "gdb" false)
           "tabA"%string
           [CmdStr "-break-insert main"; CmdList ["-exec-run"; "-exec-next"]]%string
           (one_session (healthy 100 [])) (healthy 100 [])).
  - reflexivity.
  - reflexivity.
Defined.

(** X4.  [run_gdb_command] never raises and never adds or removes a
    session.  When the client has a session and the command cannot be
    written (the message has no [cmd], or [write] raises), the client gets
    exactly one [error_running_gdb_command] event carrying the text of the
    exception, and the table is untouched: the session stays. *)
Theorem run_command_never_raises (sid : string) (message : option cmd)
    (s : state) :
  let s' := fst (run_gdb_command sid message s) in
  snd (run_gdb_command sid message s) = Done tt /\
  map fst (gdb_controllers s') = map fst (gdb_controllers s) /\
  forall g,
    dict_get sid (gdb_controllers s) = Some (Some g) ->
    match message, write_fault g with
    | Some _, None => emitted s' = emitted s
    | Some _, Some m =>
        emitted s' = emitted s ++ [(sid, error_running_gdb_command m)] /\
        gdb_controllers s' = gdb_controllers s
    | None, _ =>
        emitted s' = emitted s ++ [(sid, error_running_gdb_command "'cmd'")] /\
        gdb_controllers s' = gdb_controllers s
    end.
Proof.
  unfold run_gdb_command. unfold_py.
  destruct (dict_get sid (gdb_controllers s)) as [[g|]|] eqn:Hg.
  - assert (Hkeys : map fst (dict_set sid (Some g) (gdb_controllers s))
                    = map fst (gdb_controllers s))
      by (rewrite dict_set_keys; unfold dict_mem; now rewrite Hg).
    destruct message as [c|].
    + unfold controller_write. destruct (write_fault g) as [m|] eqn:Hw; simpl.
      * split; [reflexivity|]. split; [reflexivity|].
        intros g0 E. inversion E; subst. rewrite Hw. auto.
      * split; [reflexivity|]. split.
        -- rewrite dict_set_keys. unfold dict_mem. now rewrite Hg.
        -- intros g0 E. inversion E; subst. now rewrite Hw.
    + simpl. split; [reflexivity|]. split; [reflexivity|].
      intros g0 E. inversion E; subst. auto.
  - simpl. split; [reflexivity|]. split; [reflexivity|]. discriminate.
  - simpl. split; [reflexivity|]. split; [reflexivity|]. discriminate.
Qed.

(** ** Connect and disconnect *)

Lemma connect_new_ok (env : module_env) (sid : string) (spawn : spawner)
    (s : state) (b : bool) (g : GdbController) :
  dict_mem sid (gdb_controllers s) = false ->
  STARTUP_WITH_SHELL_OFF env = Some b ->
  (forall path args, spawn path args = Done g) ->
  exists s',
    client_connected env sid spawn s = (s', Done tt) /\
    gdb_controllers s' = gdb_controllers s ++ [(sid, Some g)] /\
    emitted s' = emitted s ++ [(sid, gdb_pid (pid g))] /\
    gdb_reader_thread s' <> None /\
    exists args, spawned s' = spawned s ++ [(gdb_path env, args)].
Proof.
  intros Hnew Hflag Hspawn. rewrite client_connected_eq.
  assert (Hs : exists s1,
             connect_session env sid spawn s = (s1, Done tt) /\
             gdb_controllers s1 = dict_set sid (Some g) (gdb_controllers s) /\
             emitted s1 = emitted s /\
             exists args, spawned s1 = spawned s ++ [(gdb_path env, args)]).
  { unfold connect_session. unfold_py.
    rewrite dbprint_str, print_line_controllers, Hnew. simpl.
    rewrite dbprint_str2, Hflag.
    destruct b; simpl; rewrite Hspawn;
      (eexists; split; [reflexivity|]);
      destruct (LLDB env); simpl; autorewrite with frame;
      repeat split; eexists; reflexivity. }
  destruct Hs as (s1 & E & Hd & He & args & Hsp). rewrite E.
  destruct (@connect_tail env sid s1 g) as (s' & E' & H1 & H2 & H3 & _ & _ & H4 & _).
  { rewrite Hd. apply dict_get_set_same. }
  exists s'. split; [exact E'|].
  rewrite H2, Hd, H1, He, H3, H4, Hsp.
  rewrite (@dict_set_new sid (Some g) (gdb_controllers s) Hnew).
  repeat split; [discriminate|now exists args].
Qed.

Lemma disconnect_ok (env : module_env) (sid : string) (s : state)
    (g : GdbController) :
  dict_get sid (gdb_controllers s) = Some (Some g) ->
  exit_fault g = None ->
  exists s',
    client_disconnected env sid s = (s', Done tt) /\
    gdb_controllers s' = dict_pop sid (gdb_controllers s) /\
    emitted s' = emitted s.
Proof.
  intros Hg Hx. unfold client_disconnected. unfold_py.
  rewrite dbprint_str, print_line_controllers.
  unfold dict_mem. rewrite Hg. rewrite dbprint_str.
  unfold controller_exit. rewrite Hx.
  eexists; split; [reflexivity|]. simpl. autorewrite with frame. auto.
Qed.

(** X5.  Connect, then disconnect: when a client without a session
    connects (its gdb spawns) and then disconnects (its gdb exits), the
    session table is back to what it was before the client came; the one
    event of the visit is the [gdb_pid] sent to the client. *)
Theorem connect_then_disconnect (env : module_env) (sid : string)
    (spawn : spawner) (s : state) (b : bool) (g : GdbController) :
  dict_mem sid (gdb_controllers s) = false ->
  STARTUP_WITH_SHELL_OFF env = Some b ->
  (forall path args, spawn path args = Done g) ->
  exit_fault g = None ->
  let s' := run env [Handler (Connect sid spawn); Handler (Disconnect sid)] s in
  gdb_controllers s' = gdb_controllers s /\
  emitted s' = emitted s ++ [(sid, gdb_pid (pid g))].
Proof.
  intros Hnew Hflag Hspawn Hx. cbn [run fold_left sys_step deliver handle].
  destruct (connect_new_ok env sid spawn s Hnew Hflag Hspawn)
    as (s1 & E1 & Hd1 & He1 & _).
  rewrite E1. cbn [fst].
  destruct (@disconnect_ok env sid s1 g) as (s2 & E2 & Hd2 & He2); [|exact Hx|].
  { rewrite Hd1, <- (@dict_set_new sid (Some g) (gdb_controllers s) Hnew).
    apply dict_get_set_same. }
  rewrite E2. cbn [fst]. rewrite Hd2, He2, Hd1, He1.
  rewrite <- (@dict_set_new sid (Some g) (gdb_controllers s) Hnew).
  split; [|reflexivity].
  now apply dict_pop_set_new.
Qed.

Lemma connect_then_disconnect_witness :
  let env := import_module "Darwin-16.7.0-x86_64-i386-64bit" false "gdb" true in
  let g := healthy 300 [] in
  let s := run env (two_clients (healthy 100 []) (healthy 200 [])) initial_state in
  let s' := run env [Handler (Connect "tabC" (fun _ _ => Done g));
                     Handler (Disconnect "tabC")] s in
  gdb_controllers s' = gdb_controllers s /\
  emitted s' = emitted s ++ [("tabC"%string, gdb_pid (pid g))].
Proof.
  apply (@connect_then_disconnect
           (import_module "Darwin-16.7.0-x86_64-i386-64bit" false "gdb" true)
           "tabC"%string (fun _ _ => Done (healthy 300 []))
           (run (import_module "Darwin-16.7.0-x86_64-i386-64bit" false "gdb" true)
                (two_clients (healthy 100 []) (healthy 200 [])) initial_state)
           true (healthy 300 [])).
  - reflexivity.
  - reflexivity.
  - reflexivity.
  - reflexivity.
Defined.

(** X6.  The first connect of a client, when its gdb spawns: the new
    session goes after the sessions already in the table, which keep their
    order; the client is sent the pid of the new process; the spawn used the
    configured [gdb_path]; and a reader task is recorded from then on. *)
Theorem first_connect_appends_session (env : module_env) (sid : string)
    (spawn : spawner) (s : state) (b : bool) (g : GdbController) :
  dict_mem sid (gdb_controllers s) = false ->
  STARTUP_WITH_SHELL_OFF env = Some b ->
  (forall path args, spawn path args = Done g) ->
  let s' := fst (client_connected env sid spawn s) in
  snd (client_connected env sid spawn s) = Done tt /\
  gdb_controllers s' = gdb_controllers s ++ [(sid, Some g)] /\
  emitted s' = emitted s ++ [(sid, gdb_pid (pid g))] /\
  gdb_reader_thread s' <> None /\
  map fst (spawned s') = map fst (spawned s) ++ [gdb_path env].
Proof.
  intros Hnew Hflag Hspawn.
  destruct (connect_new_ok env sid spawn s Hnew Hflag Hspawn)
    as (s1 & E & Hd & He & Ht & args & Hsp).
  rewrite E. cbn [fst snd]. repeat split; auto.
  rewrite Hsp, map_app. reflexivity.
Qed.

Lemma first_connect_appends_session_witness :
  let env := import_module "Linux-5.4.0-x86_64-with-glibc2.29" true "lldb-mi" false in
  let g := healthy 300 [] in
  let spawn : spawner := fun _ _ => Done g in
  let s := run env (two_clients (healthy 100 []) (healthy 200 [])) initial_state in
  let s' := fst (client_connected env "tabC" spawn s) in
  snd (client_connected env "tabC" spawn s) = Done tt /\
  gdb_controllers s' = gdb_controllers s ++ [("tabC"%string, Some g)] /\
  emitted s' = emitted s ++ [("tabC"%string, gdb_pid (pid g))] /\
  gdb_reader_thread s' <> None /\
  map fst (spawned s') = map fst (spawned s) ++ [gdb_path env].
Proof.
  apply (@first_connect_appends_session
           (import_module "Linux-5.4.0-x86_64-with-glibc2.29" true "lldb-mi" false)
           "tabC"%string (fun _ _ => Done (healthy 300 []))
           (run (import_module "Linux-5.4.0-x86_64-with-glibc2.29" true "lldb-mi" false)
                (two_clients (healthy 100 []) (healthy 200 [])) initial_state)
           false (healthy 300 [])).
  - reflexivity.
  - reflexivity.
  - reflexivity.
Defined.

(** ** The tables and the reader over a whole run *)

Lemma dict_get_in (k : string) (v : option GdbController) (d : dict) :
  dict_get k d = Some v -> In (k, v) d.
Proof.
  induction d as [|[k0 v0] d IH]; simpl; [discriminate|].
  destruct (String.eqb_spec k k0) as [->|Hne]; intros H.
  - left. congruence.
  - right. auto.
Qed.

(** X7.  Whatever connects, commands, disconnects and ticks happened
    since the server started (handlers during ticks included), no client
    has two entries in the session table and no entry holds [None]: the
    [AttributeError] paths of the handlers and the [break] of the reader are
    never taken. *)
Theorem reachable_sessions_are_controllers (env : module_env)
    (evs : list sys_event) (sid : string) :
  let table := gdb_controllers (run env evs initial_state) in
  NoDup (map fst table) /\ dict_get sid table <> Some None.
Proof.
  destruct (@run_wf env evs initial_state) as [Hnd Hall];
    [split; constructor|].
  split; [exact Hnd|].
  intros Hget. apply dict_get_in in Hget.
  rewrite Forall_forall in Hall. now apply (Hall _ Hget).
Qed.

Lemma deliver_thread (env : module_env) (h : option hevent) (s : state) :
  gdb_reader_thread (deliver env h s) = gdb_reader_thread s \/
  gdb_reader_thread (deliver env h s) = Some Running.
Proof.
  destruct h as [[sid spawn|sid message|sid]|]; simpl; [| | |now left].
  - rewrite client_connected_eq.
    pose proof (connect_session_globals env sid spawn s) as [Ht _].
    destruct (connect_session env sid spawn s) as [s1 [[]|e]]; simpl in Ht;
      [|now left].
    destruct (dict_get sid (gdb_controllers s1)) as [[g|]|] eqn:Hg.
    + destruct (@connect_tail env sid s1 g Hg)
        as (s' & E & _ & _ & _ & _ & _ & H & _).
      rewrite E. simpl. rewrite H, Ht.
      destruct (gdb_reader_thread s); auto.
    + destruct (@connect_tail_raises env sid s1) as (e & E);
        [rewrite Hg; congruence|]. rewrite E. now left.
    + destruct (@connect_tail_raises env sid s1) as (e & E);
        [rewrite Hg; congruence|]. rewrite E. now left.
  - left. apply (run_gdb_command_globals sid message s).
  - left. apply (client_disconnected_globals env sid s).
Qed.

(** X8.  Outside debug mode, as long as no handler runs in the middle
    of a tick, the reader task never dies: after any sequence of connects,
    commands, disconnects and ticks the recorded task, if any, is running,
    whatever the polls of the controllers returned or raised. *)
Theorem reader_survives_without_debug (env : module_env)
    (evs : list sys_event) (e : exn) :
  debug env = false ->
  forallb undisturbed evs = true ->
  gdb_reader_thread (run env evs initial_state) <> Some (Dead e).
Proof.
  intros Hdbg.
  assert (H : forall s,
             wf_dict (gdb_controllers s) ->
             (forall e0, gdb_reader_thread s <> Some (Dead e0)) ->
             forallb undisturbed evs = true ->
             forall e0, gdb_reader_thread (run env evs s) <> Some (Dead e0)).
  { induction evs as [|ev evs IH]; intros s Hwf Halive Hq; [exact Halive|].
    cbn [forallb] in Hq. apply andb_true_iff in Hq. destruct Hq as [Hev Hq].
    cbn [run fold_left]. apply IH; [| |exact Hq].
    - apply (@run_wf env [ev] s Hwf).
    - destruct ev as [h|[|x sched]]; [| |discriminate]; cbn [sys_step].
      + intros e0.
        destruct (deliver_thread env (Some h) s) as [E|E]; rewrite E;
          [apply Halive|discriminate].
      + destruct (gdb_reader_thread s) as [[|e1]|] eqn:Ht.
        * assert (Hsafe : forallb (entry_safe env) (gdb_controllers s) = true).
          { destruct Hwf as [_ Hall]. apply forallb_forall. intros [k v] Hin.
            rewrite Forall_forall in Hall. specialize (Hall _ Hin).
            unfold entry_safe. simpl in *. rewrite Hdbg. now destruct v. }
          destruct (@tick_quiet env s Hsafe) as (s' & E & _ & _ & Hg).
          rewrite E. destruct Hg as (_ & _ & Hth & _).
          intros e0. rewrite Hth, Ht. discriminate.
        * now elim (Halive e1).
        * intros e0. rewrite Ht. discriminate. }
  intros Hq. apply H; [split; constructor|discriminate|exact Hq].
Qed.

Lemma reader_survives_without_debug_witness :
  let env := import_module "Linux-5.4.0-x86_64-with-glibc2.29" false "gdb" false in
  let evs := two_clients (healthy 100 [PollRaise (Raised "gdb process has exited")])
                         (healthy 200 [PollRecords ["^done"%string]])
             ++ [Tick []; Handler (Disconnect "tabA"); Tick []] in
  gdb_reader_thread (run env evs initial_state) <> Some (Dead TypeError).
Proof.
  apply (@reader_survives_without_debug
           (import_module "Linux-5.4.0-x86_64-with-glibc2.29" false "gdb" false)
           (two_clients (healthy 100 [PollRaise (Raised "gdb process has exited")])
                        (healthy 200 [PollRecords ["^done"%string]])
            ++ [Tick []; Handler (Disconnect "tabA"); Tick []])
           TypeError).
  - reflexivity.
  - reflexivity.
Defined.

(** X9.  The reader sends a response to the client that owns the
    process it came from, and to nobody else: every event of a tick (no
    handler in between, safe entries) is a [gdb_response] addressed to a
    client of the table, and carries the non-empty answer that the poll of
    that client's own controller returned. *)
Theorem tick_events_go_to_owners (env : module_env) (s : state) :
  forallb (entry_safe env) (gdb_controllers s) = true ->
  exists evs,
    emitted (fst (tick env [] s)) = emitted s ++ evs /\
    forall room p,
      In (room, p) evs ->
      exists g,
        In (room, Some g) (gdb_controllers s) /\
        p = gdb_response (records_of (snd (controller_poll g))) /\
        records_of (snd (controller_poll g)) <> [].
Proof.
  intros Hsafe.
  destruct (@tick_quiet env s Hsafe) as (s' & E & _ & He & _).
  rewrite E. exists (flat_map entry_events (gdb_controllers s)).
  split; [exact He|].
  intros room p Hin. apply in_flat_map in Hin.
  destruct Hin as ([k [g|]] & Hkv & Hev); [|destruct Hev].
  simpl in Hev.
  destruct (snd (controller_poll g)) as [[|r rs]|e0] eqn:Hp;
    try (destruct Hev; fail).
  destruct Hev as [Hev|[]]. inversion Hev; subst.
  exists g. rewrite Hp. simpl.
  split; [exact Hkv|]. split; [reflexivity|discriminate].
Qed.

Lemma tick_events_go_to_owners_witness :
  let env := import_module "Linux-5.4.0-x86_64-with-glibc2.29" false "gdb" false in
  let s := run env (two_clients (healthy 100 [PollRaise (Raised "exited")])
                                (healthy 200 [PollRecords ["^done"%string]]))
               initial_state in
  exists evs,
    emitted (fst (tick env [] s)) = emitted s ++ evs /\
    forall room p,
      In (room, p) evs ->
      exists g,
        In (room, Some g) (gdb_controllers s) /\
        p = gdb_response (records_of (snd (controller_poll g))) /\
        records_of (snd (controller_poll g)) <> [].
Proof.
  apply (@tick_events_go_to_owners
           (import_module "Linux-5.4.0-x86_64-with-glibc2.29" false "gdb" false)
           (run (import_module "Linux-5.4.0-x86_64-with-glibc2.29" false "gdb" false)
                (two_clients (healthy 100 [PollRaise (Raised "exited")])
                             (healthy 200 [PollRecords ["^done"%string]]))
                initial_state)).
  reflexivity.
Defined.

(** ** [dbprint] *)

Lemma join_args_cases (args : list pyarg) :
  if all_str args
  then exists text, join_args args = Done text
  else join_args args = Raise TypeError.
Proof.
  induction args as [|[x|e] args IH]; simpl.
  - now exists ""%string.
  - destruct args as [|a args]; [now exists x|].
    destruct (all_str (a :: args)).
    + destruct IH as [text IH]. rewrite IH. eexists. reflexivity.
    + now rewrite IH.
  - reflexivity.
Qed.

(** X10.  [dbprint] is silent outside debug mode, whatever it is given.
    In debug mode it prints one line when every argument is a [str], and
    raises [TypeError], printing nothing, as soon as one is not.  In no
    case does it touch anything but [stdout]. *)
Theorem dbprint_cases (env : module_env) (args : list pyarg) (s : state) :
  if debug env then
    if all_str args
    then exists line, dbprint env args s = (add_stdout line s, Done tt)
    else dbprint env args s = (s, Raise TypeError)
  else dbprint env args s = (s, Done tt).
Proof.
  unfold dbprint. destruct (debug env); [|reflexivity].
  pose proof (join_args_cases args) as H.
  destruct (all_str args).
  - destruct H as [text H]. rewrite H. eexists. reflexivity.
  - now rewrite H.
Qed.

(** ** The pattern of the platform check *)

Lemma strip_prefix_spec (p s r : string) :
  strip_prefix p s = Some r <-> s = (p ++ r)%string.
Proof.
  revert s. induction p as [|a p IH]; intros s; simpl.
  - split; congruence.
  - destruct s as [|b s]; [split; discriminate|].
    destruct (Ascii.eqb_spec a b) as [->|Hne].
    + rewrite IH. split; congruence.
    + split; [discriminate|]. intros H. inversion H. congruence.
Qed.

Lemma span_digits_spec (s : string) :
  let (d, r) := span_digits s in
  s = (d ++ r)%string /\ all_digits d = true /\
  match r with
  | String c _ => is_digit c = false
  | EmptyString => True
  end.
Proof.
  induction s as [|c s IH]; simpl; [auto|].
  destruct (is_digit c) eqn:Hc.
  - destruct (span_digits s) as [d r]. destruct IH as (H1 & H2 & H3).
    simpl. rewrite Hc, H2. subst. auto.
  - simpl. auto.
Qed.

Lemma span_digits_app (d r : string) :
  all_digits d = true ->
  match r with
  | String c _ => is_digit c = false
  | EmptyString => True
  end ->
  span_digits (d ++ r)%string = (d, r).
Proof.
  intros Hd Hr. induction d as [|c d IH]; simpl in *.
  - destruct r as [|c r]; [reflexivity|]. simpl. now rewrite Hr.
  - apply andb_true_iff in Hd. destruct Hd as [Hc Hd].
    rewrite Hc, (IH Hd). reflexivity.
Qed.

(** X11.  The matcher of the platform check is the pattern
    [darwin-(\d+)\..*] anchored at the start: it answers with group [g]
    exactly for the strings made of [darwin-], the digits [g] (one at
    least), a dot, and anything after it. *)
Theorem re_match_darwin_spec (s g : string) :
  re_match_darwin s = Some g <-> darwin_major s g.
Proof.
  unfold re_match_darwin, darwin_major. split.
  - destruct (strip_prefix "darwin-" s) as [r|] eqn:Hp; [|discriminate].
    apply strip_prefix_spec in Hp.
    pose proof (span_digits_spec r) as Hs.
    destruct (span_digits r) as [d r']. destruct Hs as (H1 & H2 & H3).
    destruct d as [|c d]; [discriminate|].
    destruct r' as [|c' r']; [discriminate|].
    destruct (Ascii.eqb_spec c' "."%char) as [->|Hne].
    + intros E. inversion E; subst.
      split; [discriminate|]. split; [exact H2|]. now exists r'.
    + intros E. exfalso. revert E.
      destruct c' as [[|] [|] [|] [|] [|] [|] [|] [|]];
        try discriminate. now elim Hne.
  - intros (Hne & Hd & rest & ->).
    assert (Hp : strip_prefix "darwin-" ("darwin-" ++ g ++ "." ++ rest)%string
                 = Some (g ++ "." ++ rest)%string)
      by now apply strip_prefix_spec.
    rewrite Hp.
    rewrite (span_digits_app g ("." ++ rest)%string Hd); [|reflexivity].
    destruct g as [|c g]; [now elim Hne|reflexivity].
Qed.

(** ** [get_extra_files] *)

Lemma str_mem_in (x : string) (l : list string) :
  str_mem x l = true <-> In x l.
Proof.
  induction l as [|y l IH]; simpl; [split; [discriminate|tauto]|].
  destruct (String.eqb_spec x y) as [->|Hne].
  - split; auto.
  - rewrite IH. split; [auto|]. intros [H|H]; [congruence|exact H].
Qed.

Section ExtraFilesFacts.

Variable path_join : string -> string -> string.
Variable isfile : string -> bool.

Lemma add_files_spec (dirname : string) (files : list string) :
  forall acc : list string,
    NoDup acc ->
    NoDup (add_files path_join isfile dirname files acc) /\
    forall f,
      In f (add_files path_join isfile dirname files acc) <->
      In f acc \/
      exists name, In name files /\ f = path_join dirname name /\
                   isfile f = true.
Proof.
  induction files as [|name files IH]; intros acc Hnd; simpl.
  - split; [exact Hnd|]. intros f. split; [auto|].
    intros [H|(n & [] & _)]. exact H.
  - destruct (isfile (path_join dirname name)) eqn:Hf; simpl.
    + destruct (str_mem (path_join dirname name) acc) eqn:Hm; simpl.
      * destruct (IH acc Hnd) as [H1 H2]. split; [exact H1|].
        intros f. rewrite H2. split.
        -- intros [H|(n & Hn & E & Hi)]; [now left|].
           right. exists n. auto.
        -- intros [H|(n & [<-|Hn] & E & Hi)]; [now left| |].
           ++ left. subst. now apply str_mem_in.
           ++ right. exists n. auto.
      * assert (Hnd' : NoDup (acc ++ [path_join dirname name])).
        { apply NoDup_app; [exact Hnd|repeat constructor; intros []|].
          intros x Hx [<-|[]]. apply str_mem_in in Hx. congruence. }
        destruct (IH _ Hnd') as [H1 H2]. split; [exact H1|].
        intros f. rewrite H2, in_app_iff. simpl. split.
        -- intros [[H|[<-|[]]]|(n & Hn & E & Hi)]; [now left| |].
           ++ right. exists name. auto.
           ++ right. exists n. auto.
        -- intros [H|(n & [<-|Hn] & E & Hi)]; [now left; left| |].
           ++ left. right. left. now subst.
           ++ right. exists n. auto.
    + destruct (IH acc Hnd) as [H1 H2]. split; [exact H1|].
      intros f. rewrite H2. split.
      * intros [H|(n & Hn & E & Hi)]; [now left|].
        right. exists n. auto.
      * intros [H|(n & [<-|Hn] & E & Hi)]; [now left| |].
        -- subst. congruence.
        -- right. exists n. auto.
Qed.

Lemma walk_files_spec (walk : list (string * list string * list string)) :
  forall acc : list string,
    NoDup acc ->
    NoDup (walk_files path_join isfile walk acc) /\
    forall f,
      In f (walk_files path_join isfile walk acc) <->
      In f acc \/
      exists dirname dirs files name,
        In (dirname, dirs, files) walk /\ In name files /\
        f = path_join dirname name /\ isfile f = true.
Proof.
  induction walk as [|[[dirname dirs] files] walk IH]; intros acc Hnd; simpl.
  - split; [exact Hnd|]. intros f. split; [auto|].
    intros [H|(d & ds & fs & n & [] & _)]. exact H.
  - destruct (add_files_spec dirname files Hnd) as [Ha1 Ha2].
    destruct (IH _ Ha1) as [H1 H2]. split; [exact H1|].
    intros f. rewrite H2, Ha2. split.
    + intros [[H|(n & Hn & E & Hi)]|(d & ds & fs & n & Hw & Hn & E & Hi)].
      * now left.
      * right. exists dirname, dirs, files, n. auto.
      * right. exists d, ds, fs, n. auto.
    + intros [H|(d & ds & fs & n & [Hw|Hw] & Hn & E & Hi)].
      * now left; left.
      * inversion Hw; subst. left. right. exists n. auto.
      * right. exists d, ds, fs, n. auto.
Qed.

(** X12.  The files handed to the reloader: no path twice, and a path
    is in the list exactly when it is the join of a walked directory with
    one of its file names and [os.path.isfile] accepts it. *)
Theorem get_extra_files_spec
    (walk : list (string * list string * list string)) :
  NoDup (get_extra_files path_join isfile walk) /\
  forall f,
    In f (get_extra_files path_join isfile walk) <->
    exists dirname dirs files name,
      In (dirname, dirs, files) walk /\ In name files /\
      f = path_join dirname name /\ isfile f = true.
Proof.
  unfold get_extra_files.
  destruct (@walk_files_spec walk [] (NoDup_nil _)) as [H1 H2].
  split; [exact H1|]. intros f. rewrite H2. simpl. tauto.
Qed.

End ExtraFilesFacts.

(** ** The file routes *)

Lemma requested_file_spec (isfile : string -> bool) (path : option string)
    (p : string) :
  requested_file isfile path = Some p <-> names_file isfile path p.
Proof.
  unfold requested_file, names_file. destruct path as [[|c q]|].
  - split; [discriminate|]. intros (E & H & _). inversion E; subst.
    now elim H.
  - destruct (isfile (String c q)) eqn:Hf.
    + split.
      * intros E. inversion E; subst. repeat split; [discriminate|exact Hf].
      * intros (E & _). congruence.
    + split; [discriminate|]. intros (E & _ & Hi). inversion E; subst.
      congruence.
  - split; [discriminate|]. intros (E & _). discriminate.
Qed.

(** X13.  [/get_last_modified_unix_sec] answers 200 or 400, never
    anything else.  It answers 200 exactly when the request names a file
    whose modification time can be read, and then returns that path and
    that time.  Every answer, the refusals included, carries a [message] or
    a time, and echoes the requested path under [path] ([null] when the
    parameter was missing). *)
Theorem get_last_modified_cases (isfile : string -> bool)
    (getmtime : string -> outcome Z) (path : option string) :
  let r := get_last_modified_unix_sec isfile getmtime path in
  (snd r = 200%Z \/ snd r = 400%Z) /\
  (snd r = 200%Z <->
   exists p t, names_file isfile path p /\ getmtime p = Done t /\
               fst r = [("path"%string, JStr p);
                        ("last_modified_unix_sec"%string, JNum t)]) /\
  json_get "path" (fst r) = Some (json_of_path path) /\
  (snd r = 400%Z -> exists m, json_get "message" (fst r) = Some (JStr m)).
Proof.
  unfold get_last_modified_unix_sec.
  destruct (requested_file isfile path) as [p|] eqn:Hreq.
  - pose proof (proj1 (requested_file_spec isfile path p) Hreq) as Hn.
    assert (Hpath : path = Some p) by apply Hn.
    destruct (getmtime p) as [t|e] eqn:Ht; simpl.
    + split; [now left|]. split; [|split].
      * split; [|reflexivity]. intros _. exists p, t. auto.
      * now rewrite Hpath.
      * discriminate.
    + split; [now right|]. split; [|split].
      * split; [discriminate|].
        intros (p0 & t & (E & _) & Hg & _).
        rewrite Hpath in E. inversion E; subst. congruence.
      * now rewrite Hpath.
      * intros _. eexists. reflexivity.
  - simpl. split; [now right|]. split; [|split].
    + split; [discriminate|].
      intros (p0 & t & Hn & _).
      apply requested_file_spec in Hn. congruence.
    + reflexivity.
    + intros _. eexists. reflexivity.
Qed.

(** X14.  [/read_file] answers 200 or 400.  It answers 200 exactly when
    the request names a file and reading its time, reading its text and
    highlighting it all succeed, and then returns the highlighted lines with
    the path and the time.  A refusal carries a [message] and nothing else:
    no source code and no path. *)
Theorem read_file_cases (isfile : string -> bool)
    (getmtime : string -> outcome Z) (read : string -> outcome string)
    (highlight : string -> string -> outcome (list string))
    (path : option string) :
  let r := read_file isfile getmtime read highlight path in
  (snd r = 200%Z \/ snd r = 400%Z) /\
  (snd r = 200%Z <->
   exists p t code lines,
     names_file isfile path p /\ getmtime p = Done t /\
     read p = Done code /\ highlight p code = Done lines /\
     fst r = [("source_code"%string, JList lines); ("path"%string, JStr p);
              ("last_modified_unix_sec"%string, JNum t)]) /\
  (snd r = 400%Z -> exists m, fst r = [("message"%string, JStr m)]).
Proof.
  unfold read_file.
  destruct (requested_file isfile path) as [p|] eqn:Hreq.
  - pose proof (proj1 (requested_file_spec isfile path p) Hreq) as Hn.
    assert (Hpath : path = Some p) by apply Hn.
    assert (Hother : forall p0, names_file isfile path p0 -> p0 = p).
    { intros p0 (E & _). congruence. }
    destruct (getmtime p) as [t|e] eqn:Ht; simpl.
    + destruct (read p) as [code|e] eqn:Hr; simpl.
      * destruct (highlight p code) as [lines|e] eqn:Hh; simpl.
        -- split; [now left|]. split; [|discriminate].
           split; [|reflexivity]. intros _. exists p, t, code, lines. auto.
        -- split; [now right|]. split; [|intros _; eexists; reflexivity].
           split; [discriminate|].
           intros (p0 & t0 & c0 & l0 & Hn0 & _ & Hr0 & Hh0 & _).
           apply Hother in Hn0. subst. congruence.
      * split; [now right|]. split; [|intros _; eexists; reflexivity].
        split; [discriminate|].
        intros (p0 & t0 & c0 & l0 & Hn0 & _ & Hr0 & _).
        apply Hother in Hn0. subst. congruence.
    + split; [now right|]. split; [|intros _; eexists; reflexivity].
      split; [discriminate|].
      intros (p0 & t0 & c0 & l0 & Hn0 & Hg0 & _).
      apply Hother in Hn0. subst. congruence.
  - simpl. split; [now right|]. split; [|intros _; eexists; reflexivity].
    split; [discriminate|].
    intros (p0 & t0 & c0 & l0 & Hn0 & _).
    apply requested_file_spec in Hn0. congruence.
Qed.

(** ** Start-up *)

Ltac simp_startup :=
  cbn [negb andb orb fst snd app existsb is_run is_open_browser In].

(** Case analysis along the branches of [main] and [setup_backend]; [fin]
    closes a goal once the branch taken is known. *)
Ltac case_startup os args fin :=
  unfold main, main_parsed, setup_backend, verify_gdb_exists, server_runs,
    browser_opens, startup_checks_pass, host_resolves, host_shown,
    effective_host, gdb_accepted, lldb_mode, port_parsed, actions_of,
    ending_of, config_of;
  cbn [config_gdb_path];
  destruct (args_version args); simp_startup; [solve [fin]|];
  destruct (find_executable os (args_gdb args)); simp_startup;
    [|solve [fin]];
  destruct (str_in "lldb" (lower (args_gdb args)));
  destruct (str_in "lldb-mi" (lower (args_gdb args)));
  simp_startup; try solve [fin];
  (destruct (args_port args) as [port|e]; simp_startup; try solve [fin];
   destruct (args_lldb args);
   destruct (find_executable os LLDB_SERVER_PATH);
   simp_startup; try solve [fin];
   destruct (args_remote args);
   simp_startup;
   try change (String.eqb "0.0.0.0" DEFAULT_HOST) with false;
   try destruct (String.eqb (args_host args) DEFAULT_HOST);
   try destruct (host_ip os) as [shown|e1];
   simp_startup; try solve [fin];
   destruct (args_no_browser args);
   destruct (args_debug args);
   try destruct (socketio_run os) as [[]|e2];
   simp_startup; solve [fin]).

(** X15.  [main] gets to [socketio.run] exactly when [parse_args]
    returns, the start-up checks pass ([--version] was not asked,
    [verify_gdb_exists] accepts the gdb path, the port is a number and, in
    lldb mode, [lldb-server] is found) and the address to print is
    available (the host is [127.0.0.1], or the host name of the machine
    resolves).  The server is then asked to listen on the port and with the
    debug flag of the command line, on [0.0.0.0] when [--remote] was given
    and on [--host] otherwise. *)
Theorem main_serves_iff (os : host_os) (p : parsed) :
  existsb is_run (actions_of (main os p)) = server_runs os p /\
  forall host port dbg extra,
    In (SocketioRun host port dbg extra) (actions_of (main os p)) ->
    exists args,
      p = Parsed args /\
      host = effective_host args /\
      args_port args = Done port /\
      dbg = args_debug args.
Proof.
  destruct p as [args|code output]; [|split; [reflexivity|]].
  - split.
    + case_startup os args ltac:(reflexivity).
    + intros host port0 dbg extra H. exists args. revert H.
      case_startup os args
        ltac:(intros H; repeat (destruct H as [H|H]); try discriminate H;
              try (destruct H; fail); inversion H; subst; auto).
  - intros host port dbg extra [H|[]]. discriminate H.
Qed.

(** X16.  The browser is opened exactly when [parse_args] returns, the
    start-up checks pass and none of [--remote], [--no_browser] and
    [--debug] was given.  The host name is looked up later: whether it
    resolves plays no part. *)
Theorem main_opens_browser_iff (os : host_os) (p : parsed) :
  existsb is_open_browser (actions_of (main os p)) = browser_opens os p.
Proof.
  destruct p as [args|code output]; [|reflexivity].
  case_startup os args ltac:(reflexivity).
Qed.


Lemma first_spawn_args (env : module_env) (sid : string) (g : GdbController)
    (s : state) :
  dict_mem sid (gdb_controllers s) = false ->
  STARTUP_WITH_SHELL_OFF env = Some false ->
  spawned (fst (client_connected env sid (fun _ _ => Done g) s))
  = spawned s
    ++ [(gdb_path env,
         if LLDB env then DEFAULT_LLDB_ARGS s else DEFAULT_GDB_ARGS s)].
Proof.
  intros Hnew Hflag. rewrite client_connected_eq.
  assert (Hs : exists s1,
             connect_session env sid (fun _ _ => Done g) s = (s1, Done tt) /\
             dict_get sid (gdb_controllers s1) = Some (Some g) /\
             spawned s1
             = spawned s
               ++ [(gdb_path env,
                    if LLDB env then DEFAULT_LLDB_ARGS s
                    else DEFAULT_GDB_ARGS s)]).
  { unfold connect_session. unfold_py.
    rewrite dbprint_str, print_line_controllers, Hnew. simpl.
    rewrite dbprint_str2, Hflag. simpl.
    eexists; split; [reflexivity|]. simpl. autorewrite with frame.
    split; [apply dict_get_set_same|].
    destruct (LLDB env); simpl; now autorewrite with frame. }
  destruct Hs as (s1 & E & Hg & Hsp). rewrite E.
  destruct (@connect_tail env sid s1 g Hg) as (s' & E' & _ & _ & H3 & _).
  rewrite E'. simpl. now rewrite H3.
Qed.

(** X18.  From the command line to the spawn.  When the server starts,
    the handlers read the gdb path and the mode that [main] stored.  A gdb
    path that mentions [lldb] is only accepted with [lldb-mi] in it, which
    turns lldb mode on: the first client then gets its process spawned from
    that path with the lldb arguments, never with [-nx]. *)
Theorem accepted_lldb_path_spawns_lldb (platform : string) (os : host_os)
    (args : cli_args) (sid : string) (g : GdbController) :
  startup_checks_pass os args = true ->
  str_in "lldb" (lower (args_gdb args)) = true ->
  startup_with_shell_off platform = Some false ->
  let env := env_of platform args in
  config_gdb_path (config_of (main os (Parsed args))) = gdb_path env /\
  config_LLDB (config_of (main os (Parsed args))) = Some (LLDB env) /\
  LLDB env = true /\
  spawned (fst (client_connected env sid (fun _ _ => Done g) initial_state))
  = [(args_gdb args, ["--interpreter=mi2"%string])].
Proof.
  intros Hstart Hlldb Hflag env.
  assert (Hmode : lldb_mode args = true).
  { revert Hstart. unfold startup_checks_pass, gdb_accepted, lldb_mode.
    rewrite Hlldb.
    destruct (str_in "lldb-mi" (lower (args_gdb args)));
      [intros _; apply orb_true_r|].
    destruct (args_version args), (find_executable os (args_gdb args));
      simpl; discriminate. }
  assert (Hcfg : config_gdb_path (config_of (main os (Parsed args)))
                 = args_gdb args /\
                 config_LLDB (config_of (main os (Parsed args)))
                 = Some (lldb_mode args)).
  { revert Hstart.
    case_startup os args
      ltac:(intros H; try discriminate H; split; reflexivity). }
  destruct Hcfg as [Hc1 Hc2].
  assert (Henv : LLDB env = true) by exact Hmode.
  split; [exact Hc1|]. split; [exact Hc2|]. split; [exact Henv|].
  rewrite first_spawn_args; [|reflexivity|exact Hflag].
  rewrite Henv. reflexivity.
Qed.

Lemma accepted_lldb_path_spawns_lldb_witness :
  let os := mkOS (fun _ => true) false (Done "192.168.1.5"%string)
                 (fun d f => d ++ "/" ++ f)%string
                 (fun _ => true) [] "0.7.4.5" (Done tt) in
  let args := mkArgs [] (Done 5000%Z) "127.0.0.1" false "/usr/local/bin/LLDB-MI"
                     false false false false true in
  let env := env_of "Linux-5.4.0-x86_64-with-glibc2.29" args in
  config_gdb_path (config_of (main os (Parsed args))) = gdb_path env /\
  config_LLDB (config_of (main os (Parsed args))) = Some (LLDB env) /\
  LLDB env = true /\
  spawned (fst (client_connected env "tab1" (fun _ _ => Done (healthy 4242 []))
                  initial_state))
  = [(args_gdb args, ["--interpreter=mi2"%string])].
Proof.
  apply (@accepted_lldb_path_spawns_lldb
           "Linux-5.4.0-x86_64-with-glibc2.29"
           (mkOS (fun _ => true) false (Done "192.168.1.5"%string)
                 (fun d f => d ++ "/" ++ f)%string (fun _ => true) []
                 "0.7.4.5" (Done tt))
           (mkArgs [] (Done 5000%Z) "127.0.0.1" false "/usr/local/bin/LLDB-MI"
                   false false false false true)
           "tab1"%string (healthy 4242 [])).
  - reflexivity.
  - reflexivity.
  - reflexivity.
Defined.
